(** * lbuild: option namespace resolvers and the repository/module
      declaration model

    A shallow embedding of [lbuild/exception.py], [lbuild/repository.py] and
    [lbuild/module.py], and the properties of the option-name resolvers, of
    option declaration and of dependency declaration.

    Python strings are modelled as [string]; the only character the code
    inspects is the colon, an ASCII character whose byte never occurs inside
    a multi-byte UTF-8 sequence, so splitting the byte string and splitting
    the code-point string agree. *)

From Stdlib Require Import Ascii.
From stdpp Require Import base list strings.

(** ** Python built-ins used by the code *)

Definition colon : ascii := ":"%char.

(** [s.split(sep)] for a one-character separator: every occurrence of the
    separator ends a segment, so the result is never empty and
    [''.split(':')] is the one-element list holding the empty string. *)
Fixpoint str_split (sep : ascii) (s : string) : list string :=
  match s with
  | EmptyString => [EmptyString]
  | String c rest =>
      if decide (c = sep) then EmptyString :: str_split sep rest
      else match str_split sep rest with
           | seg :: segs => String c seg :: segs
           | [] => [String c EmptyString]
           end
  end.

(** [s.count(c)] for a one-character [c]. *)
Fixpoint str_count (c : ascii) (s : string) : nat :=
  match s with
  | EmptyString => 0
  | String a rest => (if decide (a = c) then 1 else 0) + str_count c rest
  end.

(** [needle in hay] on strings. *)
Fixpoint str_contains (needle hay : string) : bool :=
  String.prefix needle hay ||
  match hay with
  | EmptyString => false
  | String _ rest => str_contains needle rest
  end.

(** [str(x)] where [x] is a name attribute: [None] until [set_name] is
    called, a string afterwards. This is what a [%s] conversion prints. *)
Definition pystr (x : option string) : string :=
  match x with
  | None => "None"
  | Some s => s
  end.

(** ** lbuild/exception.py, and the one built-in exception the code catches *)

Inductive exn : Type :=
  | BlobException (msg : string)
      (* base class for exceptions thrown by lbuild *)
  | OptionFormatException (msg : string)
      (* subclass of BlobException, for invalid option names *)
  | KeyError (key : string)
      (* built-in, raised by [d[key]] on a missing key *).

(** [OptionFormatException.__init__(self, name)]. *)
Definition OptionFormatException_init (name : string) : exn :=
  OptionFormatException
    ("Invalid option format for '" +:+ name +:+ "'. Option must contain " +:+
     "one (repository option) or two (module option) " +:+
     "colons.").

(** [isinstance(e, OptionFormatException)]. *)
Definition is_OptionFormatException (e : exn) : bool :=
  match e with OptionFormatException _ => true | _ => false end.

(** [isinstance(e, BlobException)]: the class and its subclass. *)
Definition is_BlobException (e : exn) : bool :=
  match e with BlobException _ | OptionFormatException _ => true | KeyError _ => false end.

(** [str(e)]. *)
Definition exn_message (e : exn) : string :=
  match e with
  | BlobException msg | OptionFormatException msg => msg
  | KeyError key => "'" +:+ key +:+ "'"
  end.

(** The outcome of a call: a value, or a raised exception. *)
Inductive result (A : Type) : Type :=
  | Return (a : A)
  | Raise (e : exn).
Arguments Return {A} a.
Arguments Raise {A} e.

(** ** Dictionaries

    A [dict] with string keys, kept in insertion order as Python keeps it
    (the order is what [repr] shows). A well-formed dictionary holds each
    key once. *)

Definition dict (V : Type) : Type := list (string * V).

Definition dict_wf {V} (d : dict V) : Prop := NoDup d.*1.

Fixpoint dict_get {V} (d : dict V) (key : string) : option V :=
  match d with
  | [] => None
  | (k, v) :: d' => if decide (k = key) then Some v else dict_get d' key
  end.

(** [key in d]. *)
Definition dict_contains {V} (d : dict V) (key : string) : bool :=
  match dict_get d key with
  | Some _ => true
  | None => false
  end.

(** [d[key]], which raises [KeyError(key)] when the key is missing. *)
Definition dict_getitem {V} (d : dict V) (key : string) : result V :=
  match dict_get d key with
  | Some v => Return v
  | None => Raise (KeyError key)
  end.

(** [d[key] = v]: a key already present keeps its place, a new key goes to
    the end. *)
Fixpoint dict_setitem {V} (d : dict V) (key : string) (v : V) : dict V :=
  match d with
  | [] => [(key, v)]
  | (k, w) :: d' =>
      if decide (k = key) then (k, v) :: d' else (k, w) :: dict_setitem d' key v
  end.

(** [d.update(other)]: the entries of [other] are stored into [d] in
    [other]'s order. *)
Definition dict_update {V} (d other : dict V) : dict V :=
  foldl (λ acc kv, dict_setitem acc kv.1 kv.2) d other.

(** [len(d)]. *)
Definition dict_len {V} (d : dict V) : nat := length d.

(** [listify(x)] of [lbuild/utils.py] and the argument it receives: one
    module name or a list of module names. *)
Inductive str_or_list : Type :=
  | Single (x : string)
  | Sequence (xs : list string).

(** Modelled from the spec: [utils.listify] is not among the sources; it
    "returns [x] if x is a single item, or x unchanged if already a
    sequence". *)
Definition listify (node : str_or_list) : list string :=
  match node with
  | Single x => [x]
  | Sequence xs => xs
  end.

(** What [depends] is given, as an object: a name or a list that is not
    the dependencies list of the module the call is made on, or that very
    list ([m.depends(m.dependencies)]). [listify] returns a list
    unchanged, so in the second case the loop of [depends] walks the list
    it appends to. *)
Inductive depends_argument : Type :=
  | Other (x : str_or_list)
  | OwnDependencies.

(** ** The [option] module, as this core sees it

    [lbuild/option.py] is a collaborator: the code constructs options,
    stores them, reads their [value] and prints them, and nothing else. *)
Class OptionModule : Type := {
  (* the values an option holds *)
  pyobject : Type;
  (* instances of [option.Option] and of its subclasses *)
  Option : Type;
  (* the attribute [o.value] *)
  Option_value : Option → pyobject;
  (* [option.Option(name, description, default)] and the two subclasses'
      constructors, which may reject their arguments *)
  Option_init : string → string → pyobject → result Option;
  BooleanOption_init : string → string → pyobject → result Option;
  NumericOption_init : string → string → pyobject → result Option;
  (* [repr(d)] of a dictionary of options *)
  repr : dict Option → string;
}.

(** ** The store of shared dictionaries

    A resolver is handed dictionaries that other objects hold as well, so
    they live in a store and the resolver keeps their addresses. A
    computation reads and writes the store; it returns a value or raises.
    [None] is a read through an address nothing was allocated at, which no
    Python program can do. *)

(** addresses, and the store: the dictionary at each address *)
Abbreviation loc := nat (only parsing).
Abbreviation heap := (list (dict Option)) (only parsing).

Section store.
Context {OM : OptionModule}.

Definition M (A : Type) : Type := heap → option (result A * heap).

#[export] Instance M_ret : MRet M := λ A a h, Some (Return a, h).

#[export] Instance M_bind : MBind M := λ A B f m h,
  match m h with
  | Some (Return a, h') => f a h'
  | Some (Raise e, h') => Some (Raise e, h')
  | None => None
  end.

Definition raise {A} (e : exn) : M A := λ h, Some (Raise e, h).

Definition lift {A} (r : result A) : M A := λ h, Some (r, h).

(** the dictionary an address refers to *)
Definition deref (l : loc) : M (dict Option) := λ h,
  match h !! l with
  | Some d => Some (Return d, h)
  | None => None
  end.

(** a new dictionary object *)
Definition alloc (d : dict Option) : M loc := λ h,
  Some (Return (length h), h ++ [d]).

(** in-place change of the dictionary at an address *)
Definition modify (l : loc) (f : dict Option → dict Option) : M unit := λ h,
  match h !! l with
  | Some d => Some (Return (), <[l := f d]> h)
  | None => None
  end.

(** [try: body  except KeyError: handler] *)
Definition try_except_KeyError {A} (body handler : M A) : M A := λ h,
  match body h with
  | Some (Raise (KeyError _), h') => handler h'
  | r => r
  end.

(** [d[key]] on a stored dictionary *)
Definition getitem (l : loc) (key : string) : M Option :=
  d ← deref l; lift (dict_getitem d key).

(** [d.copy()]: a new object with the same entries (the options
    themselves are shared, not copied) *)
Definition copy (l : loc) : M loc :=
  d ← deref l; alloc d.

(** [d.update(other)] *)
Definition update (l other : loc) : M unit :=
  o ← deref other; modify l (λ d, dict_update d o).
End store.

(** ** The [os] and [glob] modules, as this core sees them

    The repository asks the file system which paths are absolute, which
    files exist and what a directory tree holds; the answers are those of
    one state of the file system, the one a call runs in. *)
Class OsModule : Type := {
  os_path_isabs : string → bool;
  os_path_join : string → string → string;
  os_path_normpath : string → string;
  os_path_abspath : string → string;
  os_path_isfile : string → bool;
  (* [os.walk(top)]: the triples (dirpath, dirnames, filenames), in the
     order the walk yields them *)
  os_walk : string → list (string * list string * list string);
  glob_glob : string → list string;
}.

(** ** lbuild/repository.py *)

Module repository.

(** [class Repository]. The methods that only walk the file system
    ([_relocate], [glob], [add_modules], [find_modules]) are left out. *)
Module Repository.
Section defs.
Context {OM : OptionModule}.

Record t : Type := {
  path : string;
  name : option string;
  (* dict of modules, using the filename as the key; every value this
     file stores is None *)
  modules : dict unit;
  (* Name -> Option() *)
  options : dict Option;
}.

Definition __init__ (path : string) : t :=
  {| path := path; name := None; modules := []; options := [] |}.

Definition set_name (name : string) (self : t) : t :=
  {| path := self.(path); name := Some name;
     modules := self.(modules); options := self.(options) |}.

Definition _check_for_duplicates (name : string) (self : t) : result unit :=
  if dict_contains self.(options) name
  then Raise (BlobException ("Option name '" +:+ name +:+ "' is already defined"))
  else Return ().

(** [self.options[key] = o] *)
Definition store_option (key : string) (o : Option) (self : t) : t :=
  {| path := self.(path); name := self.(name);
     modules := self.(modules);
     options := dict_setitem self.(options) key o |}.

(** The common shape of the three [add_*option] methods: the duplicate
    check, then the constructor, then the store. *)
Definition add (init : string → string → pyobject → result Option)
    (name description : string) (default : pyobject) (self : t)
    : result unit * t :=
  match _check_for_duplicates name self with
  | Raise e => (Raise e, self)
  | Return _ =>
      match init name description default with
      | Raise e => (Raise e, self)
      | Return o => (Return (), store_option name o self)
      end
  end.

Definition add_option := add Option_init.
Definition add_boolean_option := add BooleanOption_init.
Definition add_numeric_option := add NumericOption_init.
End defs.

(** The methods of [Repository] that ask the file system. *)
Section files.
Context {OM : OptionModule} {OS : OsModule}.

(** Relocate relative paths to the path of the repository configuration
    file. *)
Definition _relocate (path' : string) (self : t) : string :=
  let path' :=
    if negb (os_path_isabs path')
    then os_path_join self.(path) path'
    else path' in
  os_path_normpath path'.

Definition glob (pattern : string) (self : t) : list string :=
  let pattern := os_path_abspath (_relocate pattern self) in
  glob_glob pattern.

(** [self.modules[file] = None] *)
Definition register_module (file : string) (self : t) : t :=
  {| path := self.(path); name := self.(name);
     modules := dict_setitem self.(modules) file ();
     options := self.(options) |}.

(** The [for] loop of [add_modules]. *)
Fixpoint add_modules_loop (module_files : list string) (self : t)
    : result unit * t :=
  match module_files with
  | [] => (Return (), self)
  | file :: module_files' =>
      let file := _relocate file self in
      if negb (os_path_isfile file)
      then (Raise (BlobException ("Module file not found '" +:+ file +:+ "'")),
            self)
      else add_modules_loop module_files' (register_module file self)
  end.

(** Add one or more module files. *)
Definition add_modules (modules : str_or_list) (self : t) : result unit * t :=
  let module_files := listify modules in
  add_modules_loop module_files self.

(** Find all module files following a specific pattern; the defaults of
    the two arguments are [""] and ["module.lb"]. *)
Definition find_modules (basepath modulefile : string) (self : t) : t :=
  let basepath := _relocate basepath self in
  foldl (λ self entry,
           let '(path', _, files) := entry in
           if bool_decide (modulefile ∈ files)
           then register_module
                  (os_path_normpath (os_path_join path' modulefile)) self
           else self)
        self (os_walk basepath).
End files.
End Repository.

(** [class OptionNameResolver]: option name resolver for repository
    options. *)
Module OptionNameResolver.
Section defs.
Context {OM : OptionModule}.

Record t : Type := {
  repository : Repository.t;
  options : loc;
}.

Definition __getitem__ (self : t) (key : string) : M pyobject :=
  let o := str_split colon key in
  match o with
  | [repo; option] =>
      let key :=
        if decide (repo = "")
        then pystr self.(repository).(Repository.name) +:+ ":" +:+ option
        else key in
      try_except_KeyError
        (opt ← getitem self.(options) key; mret (Option_value opt))
        (raise (BlobException ("Unknown option name '" +:+ key +:+ "'")))
  | _ =>
      (* len(o) != 2; the message is not formatted *)
      raise (BlobException
               ("Option name '%s' must contain exactly one colon " +:+
                "to separate repository and option name."))
  end.

Definition __repr__ (self : t) : M string :=
  d ← deref self.(options); mret (repr d).

Definition __len__ (self : t) : M nat :=
  d ← deref self.(options); mret (dict_len d).
End defs.
End OptionNameResolver.

End repository.

(** ** lbuild/module.py *)

Module module.

(** Verify that the given name is a valid module name. *)
Definition verify_module_name (modulename : string) : result unit :=
  if decide (length (str_split colon modulename) ≠ 2)
  then Raise (BlobException
                ("Modulename '" +:+ modulename +:+
                 "' must contain exactly one ':' as " +:+
                 "separator between repository and module name"))
  else Return ().

(** [class Module]. *)
Module Module.
Section defs.
Context {OM : OptionModule}.

Record t : Type := {
  repository : repository.Repository.t;
  filename : string;
  path : string;
  (* module name without repository *)
  name : option string;
  (* full qualified name ('repository:module') *)
  full_name : option string;
  description : string;
  (* required functions declared in the module configuration file *)
  functions : dict pyobject;
  (* list of module names this module depends upon *)
  dependencies : list string;
  options : dict Option;
}.

Definition __init__ (repository : repository.Repository.t)
    (filename path : string) : t :=
  {| repository := repository; filename := filename; path := path;
     name := None; full_name := None; description := "";
     functions := []; dependencies := []; options := [] |}.

Definition set_name (name : string) (self : t) : t :=
  {| repository := self.(repository); filename := self.(filename);
     path := self.(path);
     name := Some name;
     full_name :=
       Some (pystr self.(repository).(repository.Repository.name)
             +:+ ":" +:+ name);
     description := self.(description); functions := self.(functions);
     dependencies := self.(dependencies); options := self.(options) |}.

Definition set_description (description : string) (self : t) : t :=
  {| repository := self.(repository); filename := self.(filename);
     path := self.(path); name := self.(name);
     full_name := self.(full_name);
     description := description; functions := self.(functions);
     dependencies := self.(dependencies); options := self.(options) |}.

Definition _check_for_duplicates (name : string) (self : t) : result unit :=
  if dict_contains self.(options) name
  then Raise (BlobException ("Option name '" +:+ name +:+ "' is already defined"))
  else Return ().

(** [self.options[key] = o] *)
Definition store_option (key : string) (o : Option) (self : t) : t :=
  {| repository := self.(repository); filename := self.(filename);
     path := self.(path); name := self.(name);
     full_name := self.(full_name);
     description := self.(description); functions := self.(functions);
     dependencies := self.(dependencies);
     options := dict_setitem self.(options) key o |}.

(** The common shape of the three [add_*option] methods. *)
Definition add (init : string → string → pyobject → result Option)
    (name description : string) (default : pyobject) (self : t)
    : result unit * t :=
  match _check_for_duplicates name self with
  | Raise e => (Raise e, self)
  | Return _ =>
      match init name description default with
      | Raise e => (Raise e, self)
      | Return o => (Return (), store_option name o self)
      end
  end.

Definition add_option := add Option_init.
Definition add_boolean_option := add BooleanOption_init.
Definition add_numeric_option := add NumericOption_init.

(** [self.dependencies.append(dependency)] *)
Definition append_dependency (dependency : string) (self : t) : t :=
  {| repository := self.(repository); filename := self.(filename);
     path := self.(path); name := self.(name);
     full_name := self.(full_name);
     description := self.(description); functions := self.(functions);
     dependencies := self.(dependencies) ++ [dependency];
     options := self.(options) |}.

(** The [for] loop of [depends]: an exception leaves the loop with the
    appends made so far in place. The names are those of a list that the
    loop does not change, that is of any list object but
    [self.dependencies]; [depends_own_loop] below is the loop over that
    one. *)
Fixpoint depends_loop (todo : list string) (self : t) : result unit * t :=
  match todo with
  | [] => (Return (), self)
  | dependency :: todo' =>
      match verify_module_name dependency with
      | Raise e => (Raise e, self)
      | Return _ => depends_loop todo' (append_dependency dependency self)
      end
  end.

(** Add one or more dependencies for the module. *)
Definition depends (dependencies : str_or_list) (self : t) : result unit * t :=
  depends_loop (listify dependencies) self.

(** The [for] loop of [depends] over [self.dependencies] itself. The list
    iterator keeps an index and stops when the index reaches the length
    the list has at that moment; every append moves that length on. The
    loop may not end, so it is run for a number of steps: [None] is a loop
    still running when the steps are used up. *)
Fixpoint depends_own_loop (steps index : nat) (self : t)
    : option (result unit * t) :=
  match steps with
  | 0 => None
  | S steps' =>
      match self.(dependencies) !! index with
      | None => Some (Return (), self)
      | Some dependency =>
          match verify_module_name dependency with
          | Raise e => Some (Raise e, self)
          | Return _ =>
              depends_own_loop steps' (S index)
                (append_dependency dependency self)
          end
      end
  end.

(** [self.depends(dependencies)] for either kind of argument. *)
Definition depends_call (steps : nat) (dependencies : depends_argument)
    (self : t) : option (result unit * t) :=
  match dependencies with
  | Other x => Some (depends x self)
  | OwnDependencies => depends_own_loop steps 0 self
  end.
End defs.
End Module.

(** [class OptionNameResolver]: option name resolver for module options. *)
Module OptionNameResolver.
Section defs.
Context {OM : OptionModule}.

Record t : Type := {
  repository : repository.Repository.t;
  module : Module.t;
  repo_options : loc;
  module_options : loc;
}.

(** One [try] block encloses the three branches; [except KeyError]
    formats the binding [key] has when the lookup fails. *)
Definition __getitem__ (self : t) (key : string) : M pyobject :=
  let self_module_name := self.(module).(Module.name) in
  let option_parts := str_split colon key in
  match option_parts with
  | [repo; option] =>
      (* repository option *)
      let key :=
        if decide (repo = "")
        then pystr self.(repository).(repository.Repository.name)
             +:+ ":" +:+ option
        else key in
      try_except_KeyError
        (opt ← getitem self.(repo_options) key; mret (Option_value opt))
        (raise (BlobException ("Unknown option name '" +:+ key +:+ "'")))
  | [repo; module; option] =>
      (* module option *)
      let repo :=
        if decide (repo = "")
        then pystr self.(repository).(repository.Repository.name)
        else repo in
      let module :=
        if decide (module = "")
        then pystr self_module_name
        else module in
      let key := repo +:+ ":" +:+ module +:+ ":" +:+ option in
      try_except_KeyError
        (opt ← getitem self.(module_options) key; mret (Option_value opt))
        (raise (BlobException ("Unknown option name '" +:+ key +:+ "'")))
  | _ =>
      try_except_KeyError
        (raise (OptionFormatException_init key))
        (raise (BlobException ("Unknown option name '" +:+ key +:+ "'")))
  end.

(** Create representation of merged module and repository options. *)
Definition __repr__ (self : t) : M string :=
  o ← copy self.(module_options);
  _ ← update o self.(repo_options);
  d ← deref o;
  mret (repr d).

Definition __len__ (self : t) : M nat :=
  m ← deref self.(module_options);
  r ← deref self.(repo_options);
  mret (dict_len m + dict_len r).
End defs.
End OptionNameResolver.

End module.

(** ** A concrete [option] module

    The declarations of the scenario "repository [core] declares option
    [arch], module [core:uart] declares option [baudrate]" need options to
    exist. *)

Module scenario.

Inductive value : Type :=
  | VNone
  | VStr (s : string)
  | VInt (n : Z)
  | VBool (b : bool).

Record opt : Type := {
  o_name : string;
  o_description : string;
  o_default : value;
  o_value : value;
}.

(** Modelled from the spec: [option.Option] is not among the sources; it
    is "constructed with (name, description, default)" and "exposes
    mutable value (defaults to default)". *)
Definition make (name description : string) (default : value) : result opt :=
  Return {| o_name := name; o_description := description;
            o_default := default; o_value := default |}.

(** Modelled from the spec: the "boolean/numeric subtypes perform
    type-specific coercion/validation on construction"; here each accepts
    a default of its own type, or none. *)
Definition make_boolean (name description : string) (default : value) : result opt :=
  match default with
  | VBool _ | VNone => make name description default
  | _ => Raise (BlobException ("Invalid boolean value for '" +:+ name +:+ "'"))
  end.

Definition make_numeric (name description : string) (default : value) : result opt :=
  match default with
  | VInt _ | VNone => make name description default
  | _ => Raise (BlobException ("Invalid numeric value for '" +:+ name +:+ "'"))
  end.

(** [repr(s)] of a string, for the characters of ASCII: single quotes,
    or double quotes when the string holds a single quote and no double
    one; the backslash and the quote in use are escaped, as are tab,
    newline and carriage return; the other control characters are written
    as [\xhh]. Bytes above 127 are left as they are, which is what
    Python does for printable text. *)
Definition hex_digit (n : N) : ascii :=
  match n with
  | 0 => "0" | 1 => "1" | 2 => "2" | 3 => "3" | 4 => "4" | 5 => "5"
  | 6 => "6" | 7 => "7" | 8 => "8" | 9 => "9" | 10 => "a" | 11 => "b"
  | 12 => "c" | 13 => "d" | 14 => "e" | _ => "f"
  end%N%char.

Definition repr_char (quote c : ascii) : string :=
  let n := N_of_ascii c in
  if decide (c = "\"%char) then "\\"
  else if decide (c = quote) then String "\"%char (String quote "")
  else if decide (n = 9%N) then "\t"
  else if decide (n = 10%N) then "\n"
  else if decide (n = 13%N) then "\r"
  else if decide (n < 32 ∨ n = 127)%N
       then String "\"%char
              (String "x"%char
                 (String (hex_digit (n / 16)) (String (hex_digit (n mod 16)) "")))
  else String c "".

Fixpoint repr_chars (quote : ascii) (s : string) : string :=
  match s with
  | EmptyString => ""
  | String c rest => repr_char quote c +:+ repr_chars quote rest
  end.

Definition repr_str (s : string) : string :=
  let quote : ascii :=
    if str_contains "'" s && negb (str_contains (String (ascii_of_N 34) "") s)
    then ascii_of_N 34 else "'"%char in
  String quote "" +:+ repr_chars quote s +:+ String quote "".

(** [repr(d)] of a dictionary of options; [Option(name)] stands for the
    text an option prints, which [option.py] decides. *)
Definition show (d : dict opt) : string :=
  "{" +:+ String.concat ", " ((λ kv, repr_str kv.1 +:+ ": Option(" +:+ o_name kv.2 +:+ ")") <$> d) +:+ "}".

Definition option_module : OptionModule :=
  {| pyobject := value; Option := opt; Option_value := o_value;
     Option_init := make; BooleanOption_init := make_boolean;
     NumericOption_init := make_numeric; repr := show |}.

Definition arch : opt :=
  {| o_name := "arch"; o_description := "target architecture";
     o_default := VStr "avr"; o_value := VStr "avr" |}.

Definition baudrate : opt :=
  {| o_name := "baudrate"; o_description := "baud rate";
     o_default := VInt 9600; o_value := VInt 9600 |}.

Definition core : @repository.Repository.t option_module :=
  repository.Repository.set_name "core" (repository.Repository.__init__ "/src/core").

Definition uart : @module.Module.t option_module :=
  module.Module.set_name "uart"
    (module.Module.__init__ core "/src/core/uart/module.lb" "/src/core/uart").

(** the merged, fully-qualified option tables: repository options at
    address 0, module options at address 1 *)
Definition tables : list (dict opt) :=
  [ [("core:arch", arch)]; [("core:uart:baudrate", baudrate)] ].

Definition repo_resolver : @repository.OptionNameResolver.t option_module :=
  {| repository.OptionNameResolver.repository := core;
     repository.OptionNameResolver.options := 0 |}.

Definition module_resolver : @module.OptionNameResolver.t option_module :=
  {| module.OptionNameResolver.repository := core;
     module.OptionNameResolver.module := uart;
     module.OptionNameResolver.repo_options := 0;
     module.OptionNameResolver.module_options := 1 |}.

(** a repository whose name holds a colon: [set_name] takes any string *)
Definition nested : @repository.Repository.t option_module :=
  repository.Repository.set_name "a:b" (repository.Repository.__init__ "/src/nested").

Definition nested_tables : list (dict opt) :=
  [ [("a:b:opt", arch)] ].

Definition nested_resolver : @repository.OptionNameResolver.t option_module :=
  {| repository.OptionNameResolver.repository := nested;
     repository.OptionNameResolver.options := 0 |}.

(** a small file system for the repository [core]: two module files, and
    the directory tree a walk from "/src/core" yields *)
Definition files_present : list string :=
  ["/src/core/uart/module.lb"; "/src/core/gpio/module.lb"].

Definition tree : list (string * list string * list string) :=
  [ ("/src/core", ["uart"; "gpio"; "doc"], ["repo.lb"]);
    ("/src/core/uart", [], ["module.lb"; "uart.c"]);
    ("/src/core/gpio", [], ["module.lb"]);
    ("/src/core/doc", [], ["index.md"]) ].

(** [os.path] as [posixpath] defines it. *)
Definition slash : ascii := "/"%char.

Fixpoint ends_with_slash (s : string) : bool :=
  match s with
  | EmptyString => false
  | String c EmptyString => bool_decide (c = slash)
  | String _ rest => ends_with_slash rest
  end.

(** [posixpath.join(a, b)] *)
Definition posix_join (a b : string) : string :=
  if String.prefix "/" b then b
  else if bool_decide (a = "") || ends_with_slash a then a +:+ b
  else a +:+ "/" +:+ b.

(** One component in the loop of [posixpath.normpath]; [new_comps] is kept
    with its last component first. *)
Definition normpath_step (initial_slashes : nat) (new_comps : list string)
    (comp : string) : list string :=
  if bool_decide (comp = "") || bool_decide (comp = ".") then new_comps
  else if bool_decide (comp ≠ "..")
          || (bool_decide (initial_slashes = 0) && bool_decide (new_comps = []))
          || bool_decide (head new_comps = Some "..")
       then comp :: new_comps
       else tail new_comps.

(** [posixpath.normpath(path)] *)
Definition posix_normpath (path : string) : string :=
  if bool_decide (path = "") then "."
  else
    let initial_slashes :=
      if String.prefix "/" path
      then if String.prefix "//" path && negb (String.prefix "///" path)
           then 2 else 1
      else 0 in
    let comps := str_split slash path in
    let new_comps := foldl (normpath_step initial_slashes) [] comps in
    let path := String.concat "/" (reverse new_comps) in
    let path := String.concat "" (replicate initial_slashes "/") +:+ path in
    if bool_decide (path = "") then "." else path.

(** [posixpath.abspath(path)], the current directory being the root *)
Definition posix_abspath (path : string) : string :=
  posix_normpath (if String.prefix "/" path then path else posix_join "/" path).

(** The file system answers from [files_present] and [tree]; [glob.glob]
    here knows patterns without wildcards only. *)
Definition os_module : OsModule :=
  {| os_path_isabs := String.prefix "/";
     os_path_join := posix_join;
     os_path_normpath := posix_normpath;
     os_path_abspath := posix_abspath;
     os_path_isfile := λ f, bool_decide (f ∈ files_present);
     os_walk := λ top, if decide (top = "/src/core") then tree else [];
     glob_glob := λ pattern, filter (λ f, f = pattern) files_present |}.

(** a repository table of three entries and a module table of two, with
    the key "x" in both *)
Definition shared_tables : list (dict opt) :=
  [ [("x", arch); ("core:arch", arch); ("core:speed", baudrate)];
    [("x", baudrate); ("core:uart:baudrate", baudrate)] ].

End scenario.

(** ** The malformed-name message of [verify_module_name] *)

Definition malformed_module_name (modulename : string) : exn :=
  BlobException
    ("Modulename '" +:+ modulename +:+
     "' must contain exactly one ':' as separator between repository and module name").

(** ** The duplicate-option message of [_check_for_duplicates] *)

Definition option_already_defined (name : string) : exn :=
  BlobException ("Option name '" +:+ name +:+ "' is already defined").

(** ** Qualified keys

    The fully-qualified form of a key, as the specification words it: an
    empty repository or module segment stands for the resolver's own
    repository or module. *)

Definition qualified_repo_key (own_repo : option string)
    (repo option : string) : string :=
  (if decide (repo = "") then pystr own_repo else repo) +:+ ":" +:+ option.

Definition qualified_module_key (own_repo own_module : option string)
    (repo modl option : string) : string :=
  (if decide (repo = "") then pystr own_repo else repo) +:+ ":" +:+
  (if decide (modl = "") then pystr own_module else modl) +:+ ":" +:+ option.

(** * Properties *)

(** ** Splitting and counting *)

Example str_split_examples :
  str_split colon "" = [""]
  ∧ str_split colon "bad" = ["bad"]
  ∧ str_split colon ":" = [""; ""]
  ∧ str_split colon "repo:" = ["repo"; ""]
  ∧ str_split colon "::opt" = [""; ""; "opt"]
  ∧ str_split colon "a:b:c:d" = ["a"; "b"; "c"; "d"].
Proof. repeat split. Qed.

Lemma str_split_length sep s :
  length (str_split sep s) = S (str_count sep s).
Proof.
  induction s as [|c s IH]; simpl; [done|].
  case_decide; simpl; [by rewrite IH|].
  destruct (str_split sep s); simpl in *; lia.
Qed.

Lemma str_split_colon_free sep s :
  str_count sep s = 0 → str_split sep s = [s].
Proof.
  induction s as [|c s IH]; simpl; [done|].
  case_decide; [done|]. intros Hs. by rewrite IH.
Qed.

Lemma str_split_app sep a b :
  str_count sep a = 0 →
  str_split sep (a +:+ String sep b) = a :: str_split sep b.
Proof.
  induction a as [|c a IH]; simpl.
  - intros _. by rewrite decide_True.
  - case_decide; [done|]. intros Ha. by rewrite IH.
Qed.

Lemma str_count_app c a b :
  str_count c (a +:+ b) = str_count c a + str_count c b.
Proof. induction a as [|x a IH]; simpl; [done|]. rewrite IH. lia. Qed.

Lemma str_prefix_app a b : String.prefix a (a +:+ b) = true.
Proof.
  induction a as [|c a IH]; simpl; [by destruct b|].
  destruct (Ascii.ascii_dec c c); [done|congruence].
Qed.

Lemma str_contains_prefix needle hay :
  String.prefix needle hay = true → str_contains needle hay = true.
Proof. intros Hp. destruct hay; simpl in *; by rewrite Hp. Qed.

Lemma str_contains_app pre needle post :
  str_contains needle (pre +:+ needle +:+ post) = true.
Proof.
  induction pre as [|c pre IH].
  - change ("" +:+ needle +:+ post) with (needle +:+ post).
    apply str_contains_prefix, str_prefix_app.
  - change (String c pre +:+ needle +:+ post)
      with (String c (pre +:+ needle +:+ post)).
    simpl. rewrite IH. apply orb_true_r.
Qed.

Lemma str_split_nonempty sep s : str_split sep s ≠ [].
Proof.
  intros Hs. pose proof (str_split_length sep s) as Hl.
  rewrite Hs in Hl. done.
Qed.

(** The first segment, the separator and the rest give the string back. *)
Lemma str_split_cons sep s a b l :
  str_split sep s = a :: b :: l →
  ∃ rest, s = a +:+ String sep rest ∧ str_split sep rest = b :: l.
Proof.
  revert a. induction s as [|c s IH]; simpl; intros a; [done|].
  case_decide as Hc.
  - intros [= <- Hs]. subst c. by exists s.
  - destruct (str_split sep s) as [|x xs] eqn:E; [intros; simplify_eq|].
    intros [= <- ->]. destruct (IH x eq_refl) as (rest & -> & Hrest).
    by exists rest.
Qed.

Lemma str_split_one sep s a : str_split sep s = [a] → s = a.
Proof.
  revert a. induction s as [|c s IH]; simpl; intros a; [by intros [= <-]|].
  case_decide as Hc.
  - intros [= _ Hs]. by apply str_split_nonempty in Hs.
  - destruct (str_split sep s) as [|x xs] eqn:E;
      [by apply str_split_nonempty in E|].
    intros [= <- ->]. f_equal. by apply IH.
Qed.

Lemma str_split_two sep s a b :
  str_split sep s = [a; b] → s = a +:+ String sep b.
Proof.
  intros (rest & -> & Hrest)%str_split_cons.
  by apply str_split_one in Hrest as ->.
Qed.


(** ** Lookups in a stored dictionary *)

Section lookups.
Context {OM : OptionModule}.

(** What the guarded lookup [try: return d[key].value except KeyError:
    raise BlobException("Unknown option name ...")] yields on an
    allocated dictionary. *)
Lemma guarded_lookup (l : loc) (key : string) (h : heap) (d : dict Option) :
  h !! l = Some d →
  try_except_KeyError
    (opt ← getitem l key; mret (Option_value opt))
    (raise (BlobException ("Unknown option name '" +:+ key +:+ "'"))) h
  = Some (match dict_get d key with
          | Some o => Return (Option_value o)
          | None => Raise (BlobException ("Unknown option name '" +:+ key +:+ "'"))
          end, h).
Proof.
  intros Hl.
  unfold try_except_KeyError, getitem, deref, lift, raise, mbind, M_bind, mret, M_ret.
  rewrite Hl. unfold dict_getitem. by destruct (dict_get d key).
Qed.
End lookups.

(** ** The repository resolver ([repository.OptionNameResolver]) *)

Section repository_resolver.
Context {OM : OptionModule}.
Import repository.
Implicit Types (self : OptionNameResolver.t) (h : heap).

(** The lookup of a key of two segments, on an allocated table. *)
Lemma repository_getitem_two self key repo option h d :
  str_split colon key = [repo; option] →
  h !! self.(OptionNameResolver.options) = Some d →
  OptionNameResolver.__getitem__ self key h =
    let key' :=
      if decide (repo = "")
      then pystr self.(OptionNameResolver.repository).(Repository.name)
           +:+ ":" +:+ option
      else key in
    Some (match dict_get d key' with
          | Some o => Return (Option_value o)
          | None => Raise (BlobException ("Unknown option name '" +:+ key' +:+ "'"))
          end, h).
Proof.
  intros Hs Hd. unfold OptionNameResolver.__getitem__. rewrite Hs.
  by apply guarded_lookup.
Qed.

(** The lookup of a key that does not split into two segments. *)
Lemma repository_getitem_other self key h :
  length (str_split colon key) ≠ 2 →
  OptionNameResolver.__getitem__ self key h =
    Some (Raise (BlobException
                   ("Option name '%s' must contain exactly one colon " +:+
                    "to separate repository and option name.")), h).
Proof.
  intros Hn. unfold OptionNameResolver.__getitem__.
  by destruct (str_split colon key) as [|a [|b [|c l]]].
Qed.
End repository_resolver.

(** ** The module resolver ([module.OptionNameResolver]) *)

Section module_resolver.
Context {OM : OptionModule}.
Import module.
Implicit Types (self : OptionNameResolver.t) (h : heap).

Lemma module_getitem_two self key repo option h d :
  str_split colon key = [repo; option] →
  h !! self.(OptionNameResolver.repo_options) = Some d →
  OptionNameResolver.__getitem__ self key h =
    let key' :=
      if decide (repo = "")
      then pystr self.(OptionNameResolver.repository).(repository.Repository.name)
           +:+ ":" +:+ option
      else key in
    Some (match dict_get d key' with
          | Some o => Return (Option_value o)
          | None => Raise (BlobException ("Unknown option name '" +:+ key' +:+ "'"))
          end, h).
Proof.
  intros Hs Hd. unfold OptionNameResolver.__getitem__. rewrite Hs.
  by apply guarded_lookup.
Qed.

Lemma module_getitem_three self key repo modl option h d :
  str_split colon key = [repo; modl; option] →
  h !! self.(OptionNameResolver.module_options) = Some d →
  OptionNameResolver.__getitem__ self key h =
    let repo' :=
      if decide (repo = "")
      then pystr self.(OptionNameResolver.repository).(repository.Repository.name)
      else repo in
    let modl' :=
      if decide (modl = "")
      then pystr self.(OptionNameResolver.module).(Module.name)
      else modl in
    let key' := repo' +:+ ":" +:+ modl' +:+ ":" +:+ option in
    Some (match dict_get d key' with
          | Some o => Return (Option_value o)
          | None => Raise (BlobException ("Unknown option name '" +:+ key' +:+ "'"))
          end, h).
Proof.
  intros Hs Hd. unfold OptionNameResolver.__getitem__. rewrite Hs.
  by apply guarded_lookup.
Qed.

Lemma module_getitem_other self key h :
  length (str_split colon key) ≠ 2 →
  length (str_split colon key) ≠ 3 →
  OptionNameResolver.__getitem__ self key h =
    Some (Raise (OptionFormatException_init key), h).
Proof.
  intros H2 H3. unfold OptionNameResolver.__getitem__.
  by destruct (str_split colon key) as [|a [|b [|c [|e l]]]].
Qed.
End module_resolver.

(** The scenario: a module resolver for [core:uart] resolves ":arch" to
    "avr" and "::baudrate" to 9600, and rejects ":missing" as unknown. *)
Example scenario_lookups :
  module.OptionNameResolver.__getitem__
    scenario.module_resolver ":arch" scenario.tables
  = Some (Return (scenario.VStr "avr"), scenario.tables)
  ∧ module.OptionNameResolver.__getitem__
      scenario.module_resolver "::baudrate" scenario.tables
    = Some (Return (scenario.VInt 9600), scenario.tables)
  ∧ module.OptionNameResolver.__getitem__
      scenario.module_resolver ":missing" scenario.tables
    = Some (Raise (BlobException "Unknown option name 'core:missing'"),
            scenario.tables).
Proof. repeat split. Qed.

(** ** Errors of the lookups *)

(** C1 (the code departs from it): the key "a:b:c" splits into three
    segments, and the repository resolver raises the plain [BlobException]
    whose text still holds the placeholder '%s', the operand of the format
    being absent. The exception is not an [OptionFormatException] and its
    message does not hold the key, whereas the module resolver raises
    [OptionFormatException(key)] for a key of a wrong segment count. *)
Lemma repository_lookup_three_segments :
  length (str_split colon "a:b:c") = 3
  ∧ repository.OptionNameResolver.__getitem__
      scenario.repo_resolver "a:b:c" scenario.tables
    = Some (Raise (BlobException
                     "Option name '%s' must contain exactly one colon to separate repository and option name."),
            scenario.tables)
  ∧ ¬ ∃ e h',
      repository.OptionNameResolver.__getitem__
        scenario.repo_resolver "a:b:c" scenario.tables = Some (Raise e, h')
      ∧ is_OptionFormatException e = true
      ∧ str_contains "a:b:c" (exn_message e) = true.
Proof.
  split; [reflexivity|]. split; [reflexivity|].
  intros (e & h' & Hrun & Hkind & _). vm_compute in Hrun.
  injection Hrun as <- _. discriminate Hkind.
Qed.

(** C5: for every key whose split on ':' yields neither 2 nor 3 segments,
    the lookup of the module resolver fails with the option-key format
    error, and the message of that error holds the key. *)
Theorem module_lookup_format_error {OM : OptionModule}
    (self : module.OptionNameResolver.t) (key : string) (h : heap) :
  length (str_split colon key) ≠ 2 →
  length (str_split colon key) ≠ 3 →
  ∃ e, module.OptionNameResolver.__getitem__ self key h = Some (Raise e, h)
       ∧ is_OptionFormatException e = true
       ∧ e = OptionFormatException_init key
       ∧ str_contains key (exn_message e) = true.
Proof.
  intros H2 H3. exists (OptionFormatException_init key).
  split; [by apply module_getitem_other|].
  repeat split. apply (str_contains_app "Invalid option format for '").
Qed.

Lemma module_lookup_format_error_witness :
  (length (str_split colon "bad") ≠ 2 ∧ length (str_split colon "bad") ≠ 3 ∧
   ∃ e, module.OptionNameResolver.__getitem__
          scenario.module_resolver "bad" scenario.tables
        = Some (Raise e, scenario.tables)
        ∧ is_OptionFormatException e = true
        ∧ e = OptionFormatException_init "bad"
        ∧ str_contains "bad" (exn_message e) = true) ∧
  (length (str_split colon "a:b:c:d") ≠ 2 ∧ length (str_split colon "a:b:c:d") ≠ 3 ∧
   ∃ e, module.OptionNameResolver.__getitem__
          scenario.module_resolver "a:b:c:d" scenario.tables
        = Some (Raise e, scenario.tables)
        ∧ is_OptionFormatException e = true
        ∧ e = OptionFormatException_init "a:b:c:d"
        ∧ str_contains "a:b:c:d" (exn_message e) = true).
Proof.
  split; (split; [vm_compute; lia|split; [vm_compute; lia|]]).
  - apply (@module_lookup_format_error scenario.option_module); vm_compute; lia.
  - apply (@module_lookup_format_error scenario.option_module); vm_compute; lia.
Defined.

(** C6: a key of the right shape whose fully-qualified form is absent from
    the table it addresses makes the lookup fail with the generic
    configuration error "Unknown option name", which quotes the
    fully-qualified key: two segments on the repository resolver, two
    segments (repository table) and three segments (module table) on the
    module resolver. *)
Theorem lookup_unknown_option {OM : OptionModule} :
  (∀ (self : repository.OptionNameResolver.t) key repo option (h : heap) d,
     str_split colon key = [repo; option] →
     h !! self.(repository.OptionNameResolver.options) = Some d →
     let fq := qualified_repo_key
                 self.(repository.OptionNameResolver.repository).(repository.Repository.name)
                 repo option in
     dict_get d fq = None →
     repository.OptionNameResolver.__getitem__ self key h
     = Some (Raise (BlobException ("Unknown option name '" +:+ fq +:+ "'")), h))
  ∧
  (∀ (self : module.OptionNameResolver.t) key repo option (h : heap) d,
     str_split colon key = [repo; option] →
     h !! self.(module.OptionNameResolver.repo_options) = Some d →
     let fq := qualified_repo_key
                 self.(module.OptionNameResolver.repository).(repository.Repository.name)
                 repo option in
     dict_get d fq = None →
     module.OptionNameResolver.__getitem__ self key h
     = Some (Raise (BlobException ("Unknown option name '" +:+ fq +:+ "'")), h))
  ∧
  (∀ (self : module.OptionNameResolver.t) key repo modl option (h : heap) d,
     str_split colon key = [repo; modl; option] →
     h !! self.(module.OptionNameResolver.module_options) = Some d →
     let fq := qualified_module_key
                 self.(module.OptionNameResolver.repository).(repository.Repository.name)
                 self.(module.OptionNameResolver.module).(module.Module.name)
                 repo modl option in
     dict_get d fq = None →
     module.OptionNameResolver.__getitem__ self key h
     = Some (Raise (BlobException ("Unknown option name '" +:+ fq +:+ "'")), h)).
Proof.
  split; [|split].
  - intros self key repo option h d Hs Hd fq Hfq.
    rewrite (repository_getitem_two _ _ _ _ _ _ Hs Hd). cbv zeta.
    assert ((if decide (repo = "")
             then pystr self.(repository.OptionNameResolver.repository).(repository.Repository.name)
                  +:+ ":" +:+ option
             else key) = fq) as ->; [|by rewrite Hfq].
    unfold fq, qualified_repo_key. case_decide; [done|].
    by apply str_split_two.
  - intros self key repo option h d Hs Hd fq Hfq.
    rewrite (module_getitem_two _ _ _ _ _ _ Hs Hd). cbv zeta.
    assert ((if decide (repo = "")
             then pystr self.(module.OptionNameResolver.repository).(repository.Repository.name)
                  +:+ ":" +:+ option
             else key) = fq) as ->; [|by rewrite Hfq].
    unfold fq, qualified_repo_key. case_decide; [done|].
    by apply str_split_two.
  - intros self key repo modl option h d Hs Hd fq Hfq.
    rewrite (module_getitem_three _ _ _ _ _ _ _ Hs Hd).
    subst fq. unfold qualified_module_key in *. cbv zeta. by rewrite Hfq.
Qed.

Lemma lookup_unknown_option_witness :
  repository.OptionNameResolver.__getitem__
    scenario.repo_resolver ":missing" scenario.tables
  = Some (Raise (BlobException "Unknown option name 'core:missing'"), scenario.tables)
  ∧
  module.OptionNameResolver.__getitem__
    scenario.module_resolver ":missing" scenario.tables
  = Some (Raise (BlobException "Unknown option name 'core:missing'"), scenario.tables)
  ∧
  module.OptionNameResolver.__getitem__
    scenario.module_resolver "core:uart:missing" scenario.tables
  = Some (Raise (BlobException "Unknown option name 'core:uart:missing'"), scenario.tables).
Proof.
  destruct (@lookup_unknown_option scenario.option_module) as (Hrepo & Hmod2 & Hmod3).
  split; [|split].
  - apply (Hrepo scenario.repo_resolver ":missing" "" "missing" scenario.tables
             [("core:arch", scenario.arch)]); reflexivity.
  - apply (Hmod2 scenario.module_resolver ":missing" "" "missing" scenario.tables
             [("core:arch", scenario.arch)]); reflexivity.
  - apply (Hmod3 scenario.module_resolver "core:uart:missing" "core" "uart" "missing"
             scenario.tables [("core:uart:baudrate", scenario.baudrate)]); reflexivity.
Defined.

(** ** Empty segments *)

Lemma str_split_empty_repo opt :
  str_count colon opt = 0 → str_split colon (":" +:+ opt) = [""; opt].
Proof.
  intros Ho. change (":" +:+ opt) with ("" +:+ String colon opt).
  rewrite str_split_app by done. by rewrite str_split_colon_free.
Qed.

Lemma str_split_repo_opt R opt :
  str_count colon R = 0 → str_count colon opt = 0 →
  str_split colon (R +:+ ":" +:+ opt) = [R; opt].
Proof.
  intros HR Ho. change (R +:+ ":" +:+ opt) with (R +:+ String colon opt).
  rewrite str_split_app by done. by rewrite str_split_colon_free.
Qed.

Lemma str_split_repo_module_opt R M opt :
  str_count colon R = 0 → str_count colon M = 0 → str_count colon opt = 0 →
  str_split colon (R +:+ ":" +:+ M +:+ ":" +:+ opt) = [R; M; opt].
Proof.
  intros HR HM Ho.
  change (R +:+ ":" +:+ M +:+ ":" +:+ opt)
    with (R +:+ String colon (M +:+ ":" +:+ opt)).
  rewrite str_split_app by done. by rewrite str_split_repo_opt.
Qed.

(** C2 (as amended): when the resolver's own repository name R (and, for
    the module resolver, its own module name M) holds no colon, empty
    segments stand for the own names. For every colon-free option name opt,
    the repository resolver's lookup of ":opt" has the result of its lookup
    of "R:opt", which is the value of the option stored under "R:opt" in the
    repository table when it is there; the module resolver's lookup of
    "::opt" has the result of its lookup of "R:M:opt", which is the value of
    the option stored under "R:M:opt" in the module table when it is
    there. *)
Theorem empty_segments_default_to_own_names {OM : OptionModule} :
  (∀ (self : repository.OptionNameResolver.t) (opt : string) (h : heap),
     let R := pystr self.(repository.OptionNameResolver.repository).(repository.Repository.name) in
     str_count colon R = 0 →
     str_count colon opt = 0 →
     repository.OptionNameResolver.__getitem__ self (":" +:+ opt) h
     = repository.OptionNameResolver.__getitem__ self (R +:+ ":" +:+ opt) h
     ∧ ∀ d o,
         h !! self.(repository.OptionNameResolver.options) = Some d →
         dict_get d (R +:+ ":" +:+ opt) = Some o →
         repository.OptionNameResolver.__getitem__ self (":" +:+ opt) h
         = Some (Return (Option_value o), h))
  ∧
  (∀ (self : module.OptionNameResolver.t) (opt : string) (h : heap),
     let R := pystr self.(module.OptionNameResolver.repository).(repository.Repository.name) in
     let M := pystr self.(module.OptionNameResolver.module).(module.Module.name) in
     str_count colon R = 0 →
     str_count colon M = 0 →
     str_count colon opt = 0 →
     module.OptionNameResolver.__getitem__ self ("::" +:+ opt) h
     = module.OptionNameResolver.__getitem__ self (R +:+ ":" +:+ M +:+ ":" +:+ opt) h
     ∧ ∀ d o,
         h !! self.(module.OptionNameResolver.module_options) = Some d →
         dict_get d (R +:+ ":" +:+ M +:+ ":" +:+ opt) = Some o →
         module.OptionNameResolver.__getitem__ self ("::" +:+ opt) h
         = Some (Return (Option_value o), h)).
Proof.
  split.
  - intros self opt h R HR Ho.
    pose proof (str_split_empty_repo opt Ho) as Hshort.
    pose proof (str_split_repo_opt R opt HR Ho) as Hlong.
    split.
    + unfold repository.OptionNameResolver.__getitem__.
      rewrite Hshort, Hlong. rewrite decide_True by done.
      fold R. by case_decide.
    + intros d o Hd Ho'.
      rewrite (repository_getitem_two _ _ _ _ _ _ Hshort Hd). cbv zeta.
      rewrite decide_True by done. fold R. by rewrite Ho'.
  - intros self opt h R M HR HM Ho.
    assert (str_split colon ("::" +:+ opt) = [""; ""; opt]) as Hshort.
    { change ("::" +:+ opt) with ("" +:+ String colon (":" +:+ opt)).
      rewrite str_split_app by done. by rewrite str_split_empty_repo. }
    pose proof (str_split_repo_module_opt R M opt HR HM Ho) as Hlong.
    split.
    + unfold module.OptionNameResolver.__getitem__.
      rewrite Hshort, Hlong. rewrite !decide_True by done.
      fold R M. by do 2 case_decide; subst.
    + intros d o Hd Ho'.
      rewrite (module_getitem_three _ _ _ _ _ _ _ Hshort Hd). cbv zeta.
      rewrite !decide_True by done. fold R M. by rewrite Ho'.
Qed.

Lemma empty_segments_default_to_own_names_witness :
  (repository.OptionNameResolver.__getitem__
     scenario.repo_resolver ":arch" scenario.tables
   = repository.OptionNameResolver.__getitem__
       scenario.repo_resolver "core:arch" scenario.tables
   ∧ repository.OptionNameResolver.__getitem__
       scenario.repo_resolver ":arch" scenario.tables
     = Some (Return (scenario.VStr "avr"), scenario.tables))
  ∧
  (module.OptionNameResolver.__getitem__
     scenario.module_resolver "::baudrate" scenario.tables
   = module.OptionNameResolver.__getitem__
       scenario.module_resolver "core:uart:baudrate" scenario.tables
   ∧ module.OptionNameResolver.__getitem__
       scenario.module_resolver "::baudrate" scenario.tables
     = Some (Return (scenario.VInt 9600), scenario.tables)).
Proof.
  destruct (@empty_segments_default_to_own_names scenario.option_module)
    as (Hrepo & Hmod).
  split.
  - destruct (Hrepo scenario.repo_resolver "arch" scenario.tables
                eq_refl eq_refl) as (Heq & Hval).
    split; [exact Heq|].
    apply (Hval [("core:arch", scenario.arch)] scenario.arch); reflexivity.
  - destruct (Hmod scenario.module_resolver "baudrate" scenario.tables
                eq_refl eq_refl eq_refl) as (Heq & Hval).
    split; [exact Heq|].
    apply (Hval [("core:uart:baudrate", scenario.baudrate)] scenario.baudrate);
      reflexivity.
Defined.

(** C2 (as stated) fails for a repository whose name holds a colon: the
    resolver of the repository named "a:b" resolves ":opt" to the value
    stored under "a:b:opt", and rejects the key "a:b:opt" itself, which
    splits into three segments. *)
Lemma empty_segments_counterexample :
  pystr scenario.nested_resolver.(repository.OptionNameResolver.repository).(repository.Repository.name)
  = "a:b"
  ∧ repository.OptionNameResolver.__getitem__
      scenario.nested_resolver ":opt" scenario.nested_tables
    = Some (Return (scenario.VStr "avr"), scenario.nested_tables)
  ∧ repository.OptionNameResolver.__getitem__
      scenario.nested_resolver "a:b:opt" scenario.nested_tables
    = Some (Raise (BlobException
                     "Option name '%s' must contain exactly one colon to separate repository and option name."),
            scenario.nested_tables)
  ∧ repository.OptionNameResolver.__getitem__
      scenario.nested_resolver ":opt" scenario.nested_tables
    ≠ repository.OptionNameResolver.__getitem__
        scenario.nested_resolver "a:b:opt" scenario.nested_tables.
Proof.
  repeat split. vm_compute. discriminate.
Qed.

(** ** Dictionaries *)

Section dict_facts.
Context {V : Type}.
Implicit Types (d : dict V) (k : string) (v : V).

Lemma dict_get_setitem_eq d k v : dict_get (dict_setitem d k v) k = Some v.
Proof.
  induction d as [|[k' w] d IH]; simpl.
  - by rewrite decide_True.
  - case_decide as Hk; simpl.
    + by rewrite decide_True.
    + by rewrite decide_False.
Qed.

Lemma dict_get_setitem_ne d k k' v :
  k ≠ k' → dict_get (dict_setitem d k v) k' = dict_get d k'.
Proof.
  intros Hne. induction d as [|[k0 w] d IH]; simpl.
  - by rewrite decide_False.
  - case_decide as Hk; simpl.
    + subst k0. by rewrite !decide_False.
    + case_decide; [done|apply IH].
Qed.

Lemma dict_get_None d k : k ∉ d.*1 → dict_get d k = None.
Proof.
  induction d as [|[k0 w] d IH]; simpl; [done|].
  rewrite not_elem_of_cons. intros [Hne Hnotin].
  rewrite decide_False by done. by apply IH.
Qed.

Lemma dict_contains_setitem d k v : dict_contains (dict_setitem d k v) k = true.
Proof. unfold dict_contains. by rewrite dict_get_setitem_eq. Qed.

(** After [d.update(other)], a key of [other] has [other]'s entry and any
    other key keeps the entry of [d]. *)
Lemma dict_get_update d other k :
  dict_wf other →
  dict_get (dict_update d other) k =
    match dict_get other k with
    | Some v => Some v
    | None => dict_get d k
    end.
Proof.
  unfold dict_wf, dict_update. revert d.
  induction other as [|[k0 v0] other IH]; intros d Hwf; simpl; [done|].
  apply NoDup_cons in Hwf as [Hk0 Hwf]. rewrite IH by done.
  case_decide as Hk.
  - subst k0. rewrite dict_get_None by done. apply dict_get_setitem_eq.
  - by rewrite dict_get_setitem_ne.
Qed.
End dict_facts.

(** ** Option declaration *)

Section declaration.
Context {OM : OptionModule}.

Lemma repository_add_duplicate init name description default
    (self : repository.Repository.t) :
  dict_contains self.(repository.Repository.options) name = true →
  repository.Repository.add init name description default self
  = (Raise (option_already_defined name), self).
Proof.
  intros Hin. unfold repository.Repository.add,
    repository.Repository._check_for_duplicates. by rewrite Hin.
Qed.

Lemma repository_add_success init name description default
    (self self' : repository.Repository.t) :
  repository.Repository.add init name description default self
  = (Return (), self') →
  ∃ o, init name description default = Return o
       ∧ self' = repository.Repository.store_option name o self.
Proof.
  unfold repository.Repository.add.
  destruct (repository.Repository._check_for_duplicates name self); [|done].
  destruct (init name description default) as [o|]; [|done].
  intros [= <-]. by exists o.
Qed.

Lemma module_add_duplicate init name description default
    (self : module.Module.t) :
  dict_contains self.(module.Module.options) name = true →
  module.Module.add init name description default self
  = (Raise (option_already_defined name), self).
Proof.
  intros Hin. unfold module.Module.add, module.Module._check_for_duplicates.
  by rewrite Hin.
Qed.

Lemma module_add_success init name description default
    (self self' : module.Module.t) :
  module.Module.add init name description default self
  = (Return (), self') →
  ∃ o, init name description default = Return o
       ∧ self' = module.Module.store_option name o self.
Proof.
  unfold module.Module.add.
  destruct (module.Module._check_for_duplicates name self); [|done].
  destruct (init name description default) as [o|]; [|done].
  intros [= <-]. by exists o.
Qed.
End declaration.

(** C3: on either scope, after [add_option(n, d)] has succeeded the option
    it built is stored under [n], and a second [add_option],
    [add_boolean_option] or [add_numeric_option] with the name [n] raises
    the generic configuration error "Option name 'n' is already defined"
    and returns the scope as it was: the option map, with the first option
    and its value, is unchanged. *)
Theorem duplicate_option_rejected {OM : OptionModule} :
  (∀ (self self' : repository.Repository.t) n d default,
     repository.Repository.add_option n d default self = (Return (), self') →
     ∃ o, Option_init n d default = Return o
          ∧ dict_get self'.(repository.Repository.options) n = Some o
          ∧ ∀ d2 default2,
              repository.Repository.add_option n d2 default2 self'
              = (Raise (option_already_defined n), self')
              ∧ repository.Repository.add_boolean_option n d2 default2 self'
                = (Raise (option_already_defined n), self')
              ∧ repository.Repository.add_numeric_option n d2 default2 self'
                = (Raise (option_already_defined n), self'))
  ∧
  (∀ (self self' : module.Module.t) n d default,
     module.Module.add_option n d default self = (Return (), self') →
     ∃ o, Option_init n d default = Return o
          ∧ dict_get self'.(module.Module.options) n = Some o
          ∧ ∀ d2 default2,
              module.Module.add_option n d2 default2 self'
              = (Raise (option_already_defined n), self')
              ∧ module.Module.add_boolean_option n d2 default2 self'
                = (Raise (option_already_defined n), self')
              ∧ module.Module.add_numeric_option n d2 default2 self'
                = (Raise (option_already_defined n), self')).
Proof.
  split.
  - intros self self' n d default (o & Ho & ->)%repository_add_success.
    exists o. split; [done|]. split; [apply dict_get_setitem_eq|].
    intros d2 default2.
    repeat split; apply repository_add_duplicate, dict_contains_setitem.
  - intros self self' n d default (o & Ho & ->)%module_add_success.
    exists o. split; [done|]. split; [apply dict_get_setitem_eq|].
    intros d2 default2.
    repeat split; apply module_add_duplicate, dict_contains_setitem.
Qed.

Lemma duplicate_option_rejected_witness :
  (∃ core' : @repository.Repository.t scenario.option_module,
     repository.Repository.add_option (OM := scenario.option_module)
       "arch" "target architecture" (scenario.VStr "avr") scenario.core
     = (Return (), core')
     ∧ dict_get core'.(repository.Repository.options) "arch" = Some scenario.arch
     ∧ repository.Repository.add_boolean_option (OM := scenario.option_module)
         "arch" "again" (scenario.VBool true) core'
       = (Raise (option_already_defined "arch"), core'))
  ∧
  (∃ uart' : @module.Module.t scenario.option_module,
     module.Module.add_option (OM := scenario.option_module)
       "baudrate" "baud rate" (scenario.VInt 9600) scenario.uart
     = (Return (), uart')
     ∧ dict_get uart'.(module.Module.options) "baudrate" = Some scenario.baudrate
     ∧ module.Module.add_numeric_option (OM := scenario.option_module)
         "baudrate" "again" (scenario.VInt 115200) uart'
       = (Raise (option_already_defined "baudrate"), uart')).
Proof.
  destruct (@duplicate_option_rejected scenario.option_module) as (Hrepo & Hmod).
  split.
  - exists (repository.Repository.store_option (OM := scenario.option_module)
                "arch" scenario.arch scenario.core).
    split; [reflexivity|]. split; [reflexivity|].
    destruct (Hrepo scenario.core
                (repository.Repository.store_option (OM := scenario.option_module)
                "arch" scenario.arch scenario.core)
                "arch" "target architecture" (scenario.VStr "avr") eq_refl)
      as (o & _ & _ & Hdup).
    destruct (Hdup "again" (scenario.VBool true)) as (_ & Hboolean & _).
    exact Hboolean.
  - exists (module.Module.store_option (OM := scenario.option_module)
                "baudrate" scenario.baudrate scenario.uart).
    split; [reflexivity|]. split; [reflexivity|].
    destruct (Hmod scenario.uart
                (module.Module.store_option (OM := scenario.option_module)
                "baudrate" scenario.baudrate scenario.uart)
                "baudrate" "baud rate" (scenario.VInt 9600) eq_refl)
      as (o & _ & _ & Hdup).
    destruct (Hdup "again" (scenario.VInt 115200)) as (_ & _ & Hnumeric).
    exact Hnumeric.
Defined.

(** ** Module names and dependencies *)

Lemma verify_module_name_ok s :
  str_count colon s = 1 → module.verify_module_name s = Return ().
Proof.
  intros Hs. unfold module.verify_module_name.
  rewrite str_split_length, Hs. by rewrite decide_False by lia.
Qed.

Lemma verify_module_name_bad s :
  str_count colon s ≠ 1 →
  module.verify_module_name s = Raise (malformed_module_name s).
Proof.
  intros Hs. unfold module.verify_module_name.
  rewrite str_split_length. by rewrite decide_True by lia.
Qed.

Section dependencies.
Context {OM : OptionModule}.
Implicit Types (self : module.Module.t).

Lemma depends_loop_cons self (s : string) (rest : list string) :
  module.Module.depends_loop (s :: rest) self
  = match module.verify_module_name s with
    | Raise e => (Raise e, self)
    | Return _ =>
        module.Module.depends_loop rest (module.Module.append_dependency s self)
    end.
Proof. reflexivity. Qed.

(** The loop over well-formed names appends them all, in order. *)
Lemma depends_loop_app self (pre rest : list string) :
  Forall (λ s, str_count colon s = 1) pre →
  module.Module.depends_loop (pre ++ rest) self
  = module.Module.depends_loop rest
      (foldl (λ acc s, module.Module.append_dependency s acc) self pre).
Proof.
  intros Hpre. revert self.
  induction Hpre as [|s pre Hs _ IH]; intros self; simpl; [done|].
  by rewrite verify_module_name_ok.
Qed.

Lemma dependencies_foldl self (pre : list string) :
  (foldl (λ acc s, module.Module.append_dependency s acc) self pre)
    .(module.Module.dependencies)
  = self.(module.Module.dependencies) ++ pre.
Proof.
  revert self. induction pre as [|s pre IH]; intros self; simpl.
  - by rewrite app_nil_r.
  - rewrite IH. simpl. by rewrite <- app_assoc.
Qed.

End dependencies.

(** The first malformed name of a list that holds one. *)
Lemma first_malformed (l : list string) :
  Exists (λ s, str_count colon s ≠ 1) l →
  ∃ pre bad post,
    l = pre ++ bad :: post
    ∧ Forall (λ s, str_count colon s = 1) pre
    ∧ str_count colon bad ≠ 1.
Proof.
  induction l as [|s l IH]; intros Hex; [by apply Exists_nil in Hex|].
  destruct (decide (str_count colon s = 1)) as [Hs|Hs].
  - apply Exists_cons in Hex as [?|Hex]; [done|].
    destruct (IH Hex) as (pre & bad & post & -> & Hpre & Hbad).
    exists (s :: pre), bad, post. by repeat constructor.
  - exists [], s, l. by repeat constructor.
Qed.

(** C4: [verify_module_name(s)] raises the malformed-name error exactly
    when the number of colons of [s] is not 1, and returns otherwise; for
    [s] with exactly one colon [depends(s)] succeeds and appends [s] as it
    is after the entries already there, whether or not [s] is among them,
    and changes nothing else. *)
Theorem verify_module_name_depends {OM : OptionModule} :
  (∀ s, (module.verify_module_name s = Raise (malformed_module_name s)
         ↔ str_count colon s ≠ 1)
        ∧ (module.verify_module_name s = Return ()
           ↔ str_count colon s = 1))
  ∧
  (∀ (self : module.Module.t) s,
     str_count colon s = 1 →
     ∃ self',
       module.Module.depends (Single s) self = (Return (), self')
       ∧ self'.(module.Module.dependencies)
         = self.(module.Module.dependencies) ++ [s]
       ∧ self' = module.Module.append_dependency s self).
Proof.
  split.
  - intros s. destruct (decide (str_count colon s = 1)) as [Hs|Hs].
    + rewrite verify_module_name_ok by done. by split; split.
    + rewrite verify_module_name_bad by done. by split; split.
  - intros self s Hs. eexists. split; [|split; [|reflexivity]]; [|done].
    unfold module.Module.depends. simpl. by rewrite verify_module_name_ok.
Qed.

Lemma verify_module_name_depends_witness :
  (module.verify_module_name "core" = Raise (malformed_module_name "core")
   ∧ module.verify_module_name "a:b:c" = Raise (malformed_module_name "a:b:c")
   ∧ module.verify_module_name "core:gpio" = Return ())
  ∧
  ∃ uart' : @module.Module.t scenario.option_module,
    module.Module.depends (Single "core:gpio") scenario.uart = (Return (), uart')
    ∧ uart'.(module.Module.dependencies) = ["core:gpio"]
    ∧ ∃ uart'',
        module.Module.depends (Single "core:gpio") uart' = (Return (), uart'')
        ∧ uart''.(module.Module.dependencies) = ["core:gpio"; "core:gpio"].
Proof.
  destruct (@verify_module_name_depends scenario.option_module) as (Hverify & Hdep).
  split.
  - split; [|split].
    + apply (Hverify "core"). vm_compute. lia.
    + apply (Hverify "a:b:c"). vm_compute. lia.
    + apply (Hverify "core:gpio"). reflexivity.
  - destruct (Hdep scenario.uart "core:gpio" eq_refl) as (uart' & Hrun & Hdeps & ->).
    eexists. split; [exact Hrun|]. split; [exact Hdeps|].
    destruct (Hdep (module.Module.append_dependency "core:gpio" scenario.uart)
                "core:gpio" eq_refl) as (uart'' & Hrun' & Hdeps' & ->).
    eexists. split; [exact Hrun'|]. exact Hdeps'.
Defined.

(** C9 (as amended): [depends] on a sequence is not atomic. A sequence
    that holds a name whose colon count is not 1 splits at its first such
    name; the call raises the malformed-name error for that name, and the
    names before it are in the dependencies list when the error is raised,
    so the list has changed whenever there is such a name before it. *)
Theorem depends_not_atomic {OM : OptionModule}
    (self : module.Module.t) (l : list string) :
  Exists (λ s, str_count colon s ≠ 1) l →
  ∃ pre bad post self',
    l = pre ++ bad :: post
    ∧ Forall (λ s, str_count colon s = 1) pre
    ∧ str_count colon bad ≠ 1
    ∧ module.Module.depends (Sequence l) self
      = (Raise (malformed_module_name bad), self')
    ∧ self'.(module.Module.dependencies)
      = self.(module.Module.dependencies) ++ pre
    ∧ (pre ≠ [] →
       self'.(module.Module.dependencies) ≠ self.(module.Module.dependencies)).
Proof.
  intros (pre & bad & post & -> & Hpre & Hbad)%first_malformed.
  exists pre, bad, post. eexists. split; [done|]. split; [done|]. split; [done|].
  split; [|split].
  - unfold module.Module.depends, listify. rewrite depends_loop_app by done.
    by rewrite depends_loop_cons, verify_module_name_bad.
  - apply dependencies_foldl.
  - rewrite dependencies_foldl. intros Hne Heq. apply Hne.
    rewrite <- (app_nil_r (module.Module.dependencies self)) in Heq at 2.
    by apply app_inv_head in Heq.
Qed.

Lemma depends_not_atomic_witness :
  Exists (λ s, str_count colon s ≠ 1) ["core:gpio"; "core:spi"; "bad"; "core:i2c"]
  ∧ ∃ pre bad post (uart' : @module.Module.t scenario.option_module),
      ["core:gpio"; "core:spi"; "bad"; "core:i2c"] = pre ++ bad :: post
      ∧ Forall (λ s, str_count colon s = 1) pre
      ∧ str_count colon bad ≠ 1
      ∧ module.Module.depends
          (Sequence ["core:gpio"; "core:spi"; "bad"; "core:i2c"]) scenario.uart
        = (Raise (malformed_module_name bad), uart')
      ∧ uart'.(module.Module.dependencies)
        = scenario.uart.(module.Module.dependencies) ++ pre
      ∧ (pre ≠ [] →
         uart'.(module.Module.dependencies)
         ≠ scenario.uart.(module.Module.dependencies)).
Proof.
  assert (Exists (λ s, str_count colon s ≠ 1)
            ["core:gpio"; "core:spi"; "bad"; "core:i2c"]) as Hex.
  { do 2 apply Exists_cons_tl. apply Exists_cons_hd. vm_compute. lia. }
  split; [exact Hex|].
  exact (@depends_not_atomic scenario.option_module scenario.uart _ Hex).
Defined.

(** C9 (as stated) fails when the malformed name comes first: the call
    raises before any append, and the dependencies list is as it was. *)
Lemma depends_not_atomic_counterexample :
  Exists (λ s, str_count colon s ≠ 1) ["bad"; "core:gpio"]
  ∧ module.Module.depends (OM := scenario.option_module)
      (Sequence ["bad"; "core:gpio"]) scenario.uart
    = (Raise (malformed_module_name "bad"), scenario.uart)
  ∧ ¬ ∀ (self : @module.Module.t scenario.option_module) (l : list string),
        Exists (λ s, str_count colon s ≠ 1) l →
        ∃ e self',
          module.Module.depends (Sequence l) self = (Raise e, self')
          ∧ self'.(module.Module.dependencies)
            ≠ self.(module.Module.dependencies).
Proof.
  assert (Exists (λ s, str_count colon s ≠ 1) ["bad"; "core:gpio"]) as Hex.
  { apply Exists_cons_hd. vm_compute. lia. }
  assert (module.Module.depends (OM := scenario.option_module)
            (Sequence ["bad"; "core:gpio"]) scenario.uart
          = (Raise (malformed_module_name "bad"), scenario.uart)) as Heval
    by reflexivity.
  split; [exact Hex|]. split; [exact Heval|].
  intros Hclaim.
  destruct (Hclaim scenario.uart ["bad"; "core:gpio"] Hex)
    as (e & self' & Hrun & Hchanged).
  rewrite Heval in Hrun. injection Hrun as _ <-. by apply Hchanged.
Qed.

(** In the scenario two names are appended before the malformed third one
    stops the call. *)
Example depends_partial_append :
  module.Module.depends (OM := scenario.option_module)
    (Sequence ["core:gpio"; "core:spi"; "bad"; "core:i2c"]) scenario.uart
  = (Raise (malformed_module_name "bad"),
     module.Module.append_dependency "core:spi"
       (module.Module.append_dependency "core:gpio" scenario.uart)).
Proof. reflexivity. Qed.

(** C10: [verify_module_name] accepts empty segments. A colon between two
    colon-free parts is accepted whatever the parts are, the empty string
    included: ":", "repo:" and ":mod" pass, and [depends(":")] succeeds and
    appends ":" to the dependencies list. *)
Theorem verify_module_name_empty_segments {OM : OptionModule} :
  (∀ repo modl,
     str_count colon repo = 0 →
     str_count colon modl = 0 →
     module.verify_module_name (repo +:+ ":" +:+ modl) = Return ())
  ∧ module.verify_module_name ":" = Return ()
  ∧ module.verify_module_name "repo:" = Return ()
  ∧ module.verify_module_name ":mod" = Return ()
  ∧ ∀ self : module.Module.t,
      ∃ self',
        module.Module.depends (Single ":") self = (Return (), self')
        ∧ self'.(module.Module.dependencies)
          = self.(module.Module.dependencies) ++ [":"]
        ∧ self' = module.Module.append_dependency ":" self.
Proof.
  split; [|by repeat split; try intros self; eauto].
  intros repo modl Hrepo Hmodl. apply verify_module_name_ok.
  rewrite str_count_app, Hrepo.
  change (":" +:+ modl) with (String colon modl). simpl.
  rewrite ?decide_True by done. by rewrite Hmodl.
Qed.

Lemma verify_module_name_empty_segments_witness :
  module.verify_module_name ("" +:+ ":" +:+ "") = Return ()
  ∧ module.verify_module_name ("repo" +:+ ":" +:+ "") = Return ()
  ∧ module.verify_module_name ("" +:+ ":" +:+ "mod") = Return ()
  ∧ ∃ uart' : @module.Module.t scenario.option_module,
      module.Module.depends (Single ":") scenario.uart = (Return (), uart')
      ∧ uart'.(module.Module.dependencies) = [":"].
Proof.
  destruct (@verify_module_name_empty_segments scenario.option_module)
    as (Hparts & _ & _ & _ & Hdep).
  split; [|split; [|split]].
  - apply (Hparts "" ""); reflexivity.
  - apply (Hparts "repo" ""); reflexivity.
  - apply (Hparts "" "mod"); reflexivity.
  - destruct (Hdep scenario.uart) as (uart' & Hrun & Hdeps & _).
    exists uart'. split; [exact Hrun|exact Hdeps].
Defined.

(** ** Steps of computations on the store *)

Section store_facts.
Context {OM : OptionModule}.
Implicit Types (h : heap) (l : loc) (d : dict Option).

Lemma bind_Return {A B} (m : M A) (f : A → M B) h a h' :
  m h = Some (Return a, h') → (m ≫= f) h = f a h'.
Proof. intros Hm. unfold mbind, M_bind. by rewrite Hm. Qed.

Lemma deref_Some l h d : h !! l = Some d → deref l h = Some (Return d, h).
Proof. intros Hl. unfold deref. by rewrite Hl. Qed.

Lemma copy_Some l h d :
  h !! l = Some d → copy l h = Some (Return (length h), h ++ [d]).
Proof. intros Hl. unfold copy. by rewrite (bind_Return _ _ _ _ _ (deref_Some _ _ _ Hl)). Qed.

Lemma update_Some l other h d o :
  h !! l = Some d → h !! other = Some o →
  update l other h = Some (Return (), <[l := dict_update d o]> h).
Proof.
  intros Hl Ho. unfold update.
  rewrite (bind_Return _ _ _ _ _ (deref_Some _ _ _ Ho)).
  unfold modify. by rewrite Hl.
Qed.
End store_facts.

(** ** Size and description of the module resolver *)

(** C7: [size()] of a module resolver is the number of entries of the
    repository table plus the number of entries of the module table; a key
    held by both tables is counted in each. The store is untouched. *)
Theorem module_resolver_size {OM : OptionModule}
    (self : module.OptionNameResolver.t) (h : heap) (dr dm : dict Option) :
  h !! self.(module.OptionNameResolver.repo_options) = Some dr →
  h !! self.(module.OptionNameResolver.module_options) = Some dm →
  module.OptionNameResolver.__len__ self h
  = Some (Return (dict_len dr + dict_len dm), h).
Proof.
  intros Hr Hm.
  unfold module.OptionNameResolver.__len__, deref, mbind, M_bind, mret, M_ret.
  rewrite Hm, Hr. do 2 f_equal. f_equal. lia.
Qed.

Lemma module_resolver_size_witness :
  (∃ dr dm,
     scenario.shared_tables !! scenario.module_resolver.(module.OptionNameResolver.repo_options)
     = Some dr
     ∧ scenario.shared_tables !! scenario.module_resolver.(module.OptionNameResolver.module_options)
       = Some dm
     ∧ dict_len dr = 3 ∧ dict_len dm = 2
     ∧ dict_contains dr "x" = true ∧ dict_contains dm "x" = true)
  ∧ module.OptionNameResolver.__len__ scenario.module_resolver scenario.shared_tables
    = Some (Return 5, scenario.shared_tables).
Proof.
  split.
  - do 2 eexists. repeat split; reflexivity.
  - apply (@module_resolver_size scenario.option_module scenario.module_resolver
             scenario.shared_tables
             [("x", scenario.arch); ("core:arch", scenario.arch);
              ("core:speed", scenario.baudrate)]
             [("x", scenario.baudrate); ("core:uart:baudrate", scenario.baudrate)]);
      reflexivity.
Defined.

(** C8: [describe()] of a module resolver renders the merged dictionary
    made by copying the module table and storing the repository table into
    the copy: a key of the repository table shows the repository table's
    entry, whether or not the module table has the key, and any other key
    shows the module table's entry. The copy is a new object: the
    repository table and the module table, and every dictionary the store
    held, are as they were. *)
Theorem module_resolver_describe {OM : OptionModule}
    (self : module.OptionNameResolver.t) (h : heap) (dr dm : dict Option) :
  h !! self.(module.OptionNameResolver.repo_options) = Some dr →
  h !! self.(module.OptionNameResolver.module_options) = Some dm →
  dict_wf dr →
  ∃ merged h',
    module.OptionNameResolver.__repr__ self h = Some (Return (repr merged), h')
    ∧ merged = dict_update dm dr
    ∧ (∀ k o, dict_get dr k = Some o → dict_get merged k = Some o)
    ∧ (∀ k, dict_get dr k = None → dict_get merged k = dict_get dm k)
    ∧ h' = h ++ [merged]
    ∧ h' !! self.(module.OptionNameResolver.repo_options) = Some dr
    ∧ h' !! self.(module.OptionNameResolver.module_options) = Some dm
    ∧ (∀ l d, h !! l = Some d → h' !! l = Some d).
Proof.
  intros Hr Hm Hwf. exists (dict_update dm dr), (h ++ [dict_update dm dr]).
  split; [|split; [done|]].
  - unfold module.OptionNameResolver.__repr__.
    rewrite (bind_Return _ _ _ _ _ (copy_Some _ _ _ Hm)).
    assert ((h ++ [dm]) !! length h = Some dm) as Hcopy
      by by apply list_lookup_middle.
    assert ((h ++ [dm]) !! self.(module.OptionNameResolver.repo_options) = Some dr)
      as Hr' by by apply lookup_app_l_Some.
    rewrite (bind_Return _ _ _ _ _ (update_Some _ _ _ _ _ Hcopy Hr')).
    rewrite insert_app_r_alt, Nat.sub_diag by done. simpl.
    assert ((h ++ [dict_update dm dr]) !! length h = Some (dict_update dm dr))
      as Hmerged by by apply list_lookup_middle.
    by rewrite (bind_Return _ _ _ _ _ (deref_Some _ _ _ Hmerged)).
  - split; [|split; [|split; [done|]]].
    + intros k o Hk. by rewrite dict_get_update, Hk.
    + intros k Hk. by rewrite dict_get_update, Hk.
    + repeat split; intros; by apply lookup_app_l_Some.
Qed.

Lemma module_resolver_describe_witness :
  ∃ merged h',
    module.OptionNameResolver.__repr__ scenario.module_resolver scenario.shared_tables
    = Some (Return (scenario.show merged), h')
    ∧ dict_get merged "x" = Some scenario.arch
    ∧ dict_get merged "core:uart:baudrate" = Some scenario.baudrate
    ∧ h' !! 0 = scenario.shared_tables !! 0
    ∧ h' !! 1 = scenario.shared_tables !! 1.
Proof.
  destruct (@module_resolver_describe scenario.option_module
              scenario.module_resolver scenario.shared_tables
              [("x", scenario.arch); ("core:arch", scenario.arch);
               ("core:speed", scenario.baudrate)]
              [("x", scenario.baudrate); ("core:uart:baudrate", scenario.baudrate)]
              eq_refl eq_refl)
    as (merged & h' & Hrun & _ & Hrepo & Hmod & _ & Hr & Hm & _).
  - apply (bool_decide_unpack _). by vm_compute.
  - exists merged, h'. split; [exact Hrun|].
    split; [by apply Hrepo|]. split; [by rewrite Hmod|].
    split; [exact Hr|exact Hm].
Defined.

(** The description of the scenario with a shared key, as it is printed:
    the module table's keys first, in their order, with the shared key
    showing the repository table's entry, then the repository table's own
    keys. *)
Example describe_shared_key :
  module.OptionNameResolver.__repr__ scenario.module_resolver scenario.shared_tables
  = Some (Return "{'x': Option(arch), 'core:uart:baudrate': Option(baudrate), 'core:arch': Option(arch), 'core:speed': Option(baudrate)}",
          scenario.shared_tables ++
          [[("x", scenario.arch); ("core:uart:baudrate", scenario.baudrate);
            ("core:arch", scenario.arch); ("core:speed", scenario.baudrate)]]).
Proof. reflexivity. Qed.


(** * Further properties *)

(** ** Dependency declaration on sequences *)

Section depends_sequences.
Context {OM : OptionModule}.
Implicit Types (self : module.Module.t).

(** The loop over a concatenation runs the loop over the first part and,
    unless that raised, the loop over the second part on the module it
    left. *)
Lemma depends_loop_seq self (l1 l2 : list string) :
  module.Module.depends_loop (l1 ++ l2) self
  = match module.Module.depends_loop l1 self with
    | (Return _, self1) => module.Module.depends_loop l2 self1
    | (Raise e, self1) => (Raise e, self1)
    end.
Proof.
  revert self. induction l1 as [|s l1 IH]; intros self; [done|].
  rewrite <- app_comm_cons, !depends_loop_cons.
  destruct (module.verify_module_name s); [apply IH|done].
Qed.

(** Appending names changes the dependencies list and nothing else. *)
Lemma foldl_append_dependency self (added : list string) :
  let self' := foldl (λ acc s, module.Module.append_dependency s acc) self added in
  self'.(module.Module.dependencies) = self.(module.Module.dependencies) ++ added
  ∧ self'.(module.Module.options) = self.(module.Module.options)
  ∧ self'.(module.Module.name) = self.(module.Module.name)
  ∧ self'.(module.Module.full_name) = self.(module.Module.full_name)
  ∧ self'.(module.Module.description) = self.(module.Module.description)
  ∧ self'.(module.Module.functions) = self.(module.Module.functions)
  ∧ self'.(module.Module.repository) = self.(module.Module.repository)
  ∧ self'.(module.Module.filename) = self.(module.Module.filename)
  ∧ self'.(module.Module.path) = self.(module.Module.path).
Proof.
  revert self. induction added as [|s added IH]; intros self; simpl.
  - by rewrite app_nil_r.
  - destruct (IH (module.Module.append_dependency s self))
      as (-> & -> & -> & -> & -> & -> & -> & -> & ->).
    simpl. by rewrite <- app_assoc.
Qed.

(** Whatever the loop returns, the module it leaves is the one it got with
    a prefix of the names appended: all of them when it returns, those
    before the first malformed name when it raises. *)
Lemma depends_loop_outcome self (l : list string) r self' :
  module.Module.depends_loop l self = (r, self') →
  ∃ added,
    added `prefix_of` l
    ∧ Forall (λ s, str_count colon s = 1) added
    ∧ self' = foldl (λ acc s, module.Module.append_dependency s acc) self added
    ∧ (r = Return () → added = l)
    ∧ (∀ e, r = Raise e →
         ∃ bad rest, l = added ++ bad :: rest
                     ∧ str_count colon bad ≠ 1
                     ∧ e = malformed_module_name bad).
Proof.
  revert self. induction l as [|s l IH]; intros self.
  - intros [= <- <-]. exists []. by repeat split.
  - rewrite depends_loop_cons.
    destruct (decide (str_count colon s = 1)) as [Hs|Hs].
    + rewrite verify_module_name_ok by done.
      intros (added & Hpre & Hok & -> & Hret & Hexn)%IH.
      exists (s :: added). split; [by apply prefix_cons|].
      split; [by constructor|]. split; [done|]. split.
      * intros ->%Hret. done.
      * intros e (bad & rest & -> & Hbad & ->)%Hexn. by exists bad, rest.
    + rewrite verify_module_name_bad by done. intros [= <- <-].
      exists []. split; [apply prefix_nil|]. split; [done|]. split; [done|].
      split; [done|]. intros e [= <-]. by exists s, l.
Qed.
End depends_sequences.

(** ** The call on the module's own list *)

Section depends_own.
Context {OM : OptionModule}.
Implicit Types (self : module.Module.t).

Lemma drop_cons_inv {A} (l tl : list A) (i : nat) (x : A) :
  drop i l = x :: tl → l !! i = Some x ∧ drop (S i) l = tl.
Proof.
  intros Hdrop.
  assert (l !! i = Some x) as Hi.
  { rewrite <- (Nat.add_0_r i), <- lookup_drop. by rewrite Hdrop. }
  split; [done|]. rewrite (drop_S _ _ _ Hi) in Hdrop. by injection Hdrop.
Qed.

(** While every name is well-formed the index stays behind the length:
    the loop is still running after any number of steps. *)
Lemma depends_own_loop_runs self (steps index : nat) :
  Forall (λ s, str_count colon s = 1) self.(module.Module.dependencies) →
  index < length self.(module.Module.dependencies) →
  module.Module.depends_own_loop steps index self = None.
Proof.
  revert index self. induction steps as [|steps IH]; intros index self Hall Hlt;
    [done|].
  cbn [module.Module.depends_own_loop].
  destruct (lookup_lt_is_Some_2 _ _ Hlt) as [d Hd]. rewrite Hd.
  assert (str_count colon d = 1) as Hvalid
    by by apply (proj1 (Forall_lookup _ _) Hall index d).
  rewrite verify_module_name_ok by done. apply IH; simpl.
  - apply Forall_app. split; [done|]. by repeat constructor.
  - rewrite length_app. simpl. lia.
Qed.

(** The loop that has well-formed names up to a malformed one ahead of the
    index reaches it and raises there. *)
Lemma depends_own_loop_raises self (steps index : nat) pre bad rest :
  drop index self.(module.Module.dependencies) = pre ++ bad :: rest →
  Forall (λ s, str_count colon s = 1) pre →
  str_count colon bad ≠ 1 →
  length pre < steps →
  module.Module.depends_own_loop steps index self
  = Some (Raise (malformed_module_name bad),
          foldl (λ acc s, module.Module.append_dependency s acc) self pre).
Proof.
  revert self steps index rest.
  induction pre as [|d pre IH]; intros self steps index rest Hdrop Hpre Hbad Hsteps.
  - destruct steps as [|steps]; [simpl in Hsteps; lia|].
    apply drop_cons_inv in Hdrop as [Hi _].
    cbn [module.Module.depends_own_loop]. rewrite Hi.
    by rewrite verify_module_name_bad.
  - destruct steps as [|steps]; [simpl in Hsteps; lia|].
    rewrite <- app_comm_cons in Hdrop.
    apply drop_cons_inv in Hdrop as [Hi Hdrop].
    apply Forall_cons in Hpre as [Hd Hpre].
    cbn [module.Module.depends_own_loop]. rewrite Hi.
    rewrite verify_module_name_ok by done.
    apply (IH _ _ _ (rest ++ [d])); [|done|done|simpl in Hsteps; lia].
    simpl. rewrite drop_app_le by (apply lookup_lt_Some in Hi; lia).
    rewrite Hdrop. by rewrite <- app_assoc.
Qed.

(** A loop that has ended has either found nothing at its index or raised
    at the first malformed name ahead of it. *)
Lemma depends_own_loop_ended self (steps index : nat) out :
  module.Module.depends_own_loop steps index self = Some out →
  (length self.(module.Module.dependencies) ≤ index ∧ out = (Return (), self))
  ∨ ∃ pre bad rest,
      drop index self.(module.Module.dependencies) = pre ++ bad :: rest
      ∧ Forall (λ s, str_count colon s = 1) pre
      ∧ str_count colon bad ≠ 1
      ∧ out = (Raise (malformed_module_name bad),
               foldl (λ acc s, module.Module.append_dependency s acc) self pre).
Proof.
  revert index self. induction steps as [|steps IH]; intros index self; [done|].
  cbn [module.Module.depends_own_loop].
  destruct (module.Module.dependencies self !! index) as [d|] eqn:Hi.
  - destruct (decide (str_count colon d = 1)) as [Hd|Hd].
    + rewrite verify_module_name_ok by done.
      intros [[Hlen _]|(pre & bad & rest & Hdrop & Hpre & Hbad & ->)]%IH.
      * simpl in Hlen. rewrite length_app in Hlen. simpl in Hlen.
        apply lookup_lt_Some in Hi. lia.
      * right. simpl in Hdrop.
        rewrite drop_app_le in Hdrop by (apply lookup_lt_Some in Hi; lia).
        destruct rest as [|x rest _] using rev_ind.
        { apply app_inj_tail in Hdrop as [_ ->]. done. }
        rewrite app_comm_cons, app_assoc in Hdrop.
        apply app_inj_tail in Hdrop as [Hdrop _].
        exists (d :: pre), bad, rest. split.
        { rewrite (drop_S _ _ _ Hi). by rewrite Hdrop. }
        split; [by constructor|]. by split.
    + rewrite verify_module_name_bad by done. intros [= <-]. right.
      exists [], d, (drop (S index) (module.Module.dependencies self)).
      split; [by apply drop_S|]. by repeat split.
  - intros [= <-]. left. split; [by apply lookup_ge_None|done].
Qed.
End depends_own.

(** X1: when [depends] returns. Given a list that is not the module's own
    dependencies list, the call returns exactly when every name has one
    colon, and the dependencies list is then the old one followed by the
    whole list, in its order and with its repetitions; on the empty list
    it returns and appends nothing. Given the module's own dependencies
    list, the call returns only when that list is empty; when the list is
    not empty and all its names are well-formed the loop never ends, each
    append giving it one more name to visit; and when it holds a malformed
    name the call raises as it would on a copy of the list. *)
Theorem depends_sequence_success {OM : OptionModule}
    (self : module.Module.t) (l : list string) :
  ((∃ steps self',
      module.Module.depends_call steps (Other (Sequence l)) self
      = Some (Return (), self'))
   ↔ Forall (λ s, str_count colon s = 1) l)
  ∧ (∀ steps self',
       module.Module.depends_call steps (Other (Sequence l)) self
       = Some (Return (), self') →
       self'.(module.Module.dependencies)
       = self.(module.Module.dependencies) ++ l)
  ∧ (∀ steps,
       module.Module.depends_call steps (Other (Sequence [])) self
       = Some (Return (), self))
  ∧ ((∃ steps self',
        module.Module.depends_call steps OwnDependencies self
        = Some (Return (), self'))
     ↔ self.(module.Module.dependencies) = [])
  ∧ (self.(module.Module.dependencies) ≠ [] →
     Forall (λ s, str_count colon s = 1) self.(module.Module.dependencies) →
     ∀ steps, module.Module.depends_call steps OwnDependencies self = None)
  ∧ (∀ steps out,
       module.Module.depends_call steps OwnDependencies self = Some out →
       out = module.Module.depends (Sequence self.(module.Module.dependencies)) self)
  ∧ (Exists (λ s, str_count colon s ≠ 1) self.(module.Module.dependencies) →
     ∀ steps,
       length self.(module.Module.dependencies) < steps →
       module.Module.depends_call steps OwnDependencies self
       = Some (module.Module.depends
                 (Sequence self.(module.Module.dependencies)) self)).
Proof.
  split; [split|split; [|split; [done|split; [split|split; [|split]]]]].
  - intros (steps & self' & [= Hrun]).
    apply depends_loop_outcome in Hrun as (added & _ & Hok & _ & Hret & _).
    rewrite (Hret eq_refl) in Hok. exact Hok.
  - intros Hall. exists 0.
    exists (foldl (λ acc s, module.Module.append_dependency s acc) self l).
    pose proof (depends_loop_app self l [] Hall) as Hrun.
    rewrite app_nil_r in Hrun. simpl. f_equal. exact Hrun.
  - intros steps self' [= Hrun].
    apply depends_loop_outcome in Hrun as (added & _ & _ & -> & Hret & _).
    rewrite (Hret eq_refl). apply foldl_append_dependency.
  - intros (steps & self' & Hrun). simpl in Hrun.
    apply depends_own_loop_ended in Hrun as [[Hlen _]|(? & ? & ? & _ & _ & _ & [=])].
    destruct (module.Module.dependencies self); [done|simpl in Hlen; lia].
  - intros Hnil. exists 1, self. simpl. by rewrite Hnil.
  - intros Hne Hall steps. simpl. apply depends_own_loop_runs; [done|].
    destruct (module.Module.dependencies self); [done|simpl; lia].
  - intros steps out Hrun. simpl in Hrun.
    apply depends_own_loop_ended in Hrun
      as [[Hlen ->]|(pre & bad & rest & Hdrop & Hpre & Hbad & ->)].
    + destruct (module.Module.dependencies self); [done|simpl in Hlen; lia].
    + rewrite drop_0 in Hdrop. rewrite Hdrop.
      unfold module.Module.depends, listify. rewrite depends_loop_app by done.
      by rewrite depends_loop_cons, verify_module_name_bad.
  - intros (pre & bad & rest & Hl & Hpre & Hbad)%first_malformed steps Hsteps.
    simpl. rewrite (depends_own_loop_raises self steps 0 pre bad rest).
    + f_equal. rewrite Hl. unfold module.Module.depends, listify.
      rewrite depends_loop_app by done.
      by rewrite depends_loop_cons, verify_module_name_bad.
    + by rewrite drop_0.
    + done.
    + done.
    + rewrite Hl, length_app in Hsteps. lia.
Qed.

Lemma depends_sequence_success_witness :
  (∃ steps (uart' : @module.Module.t scenario.option_module),
     module.Module.depends_call steps
       (Other (Sequence ["core:gpio"; "core:spi"; "core:gpio"])) scenario.uart
     = Some (Return (), uart'))
  ∧ (∀ steps,
       module.Module.depends_call (OM := scenario.option_module) steps
         OwnDependencies
         (module.Module.append_dependency "core:gpio" scenario.uart)
       = None)
  ∧ (∀ steps,
       length ["core:gpio"; "bad"] < steps →
       module.Module.depends_call (OM := scenario.option_module) steps
         OwnDependencies
         (module.Module.append_dependency "bad"
            (module.Module.append_dependency "core:gpio" scenario.uart))
       = Some (module.Module.depends (Sequence ["core:gpio"; "bad"])
                 (module.Module.append_dependency "bad"
                    (module.Module.append_dependency "core:gpio" scenario.uart)))).
Proof.
  split; [|split].
  - destruct (@depends_sequence_success scenario.option_module scenario.uart
                ["core:gpio"; "core:spi"; "core:gpio"]) as (Hiff & _).
    apply Hiff. repeat constructor.
  - destruct (@depends_sequence_success scenario.option_module
                (module.Module.append_dependency "core:gpio" scenario.uart) [])
      as (_ & _ & _ & _ & Hruns & _).
    apply Hruns; [done|]. repeat constructor.
  - destruct (@depends_sequence_success scenario.option_module
                (module.Module.append_dependency "bad"
                   (module.Module.append_dependency "core:gpio" scenario.uart)) [])
      as (_ & _ & _ & _ & _ & _ & Hraises).
    apply Hraises. apply Exists_cons_tl, Exists_cons_hd. vm_compute. lia.
Defined.

(** In the scenario the call on the module's own list of one well-formed
    name is still running after twenty steps, and with a malformed name
    behind it the call raises with the first name appended once more. *)
Example depends_own_scenario :
  module.Module.depends_call (OM := scenario.option_module) 20 OwnDependencies
    (module.Module.append_dependency "core:gpio" scenario.uart)
  = None
  ∧ (∃ uart',
       module.Module.depends_call (OM := scenario.option_module) 20
         OwnDependencies
         (module.Module.append_dependency "bad"
            (module.Module.append_dependency "core:gpio" scenario.uart))
       = Some (Raise (malformed_module_name "bad"), uart')
       ∧ uart'.(module.Module.dependencies) = ["core:gpio"; "bad"; "core:gpio"]).
Proof. split; [vm_compute; reflexivity|]. eexists. split; reflexivity. Qed.

(** X2: declaring dependencies in two calls is declaring them in one, for
    lists that are not the module's own dependencies list: a call on
    [l1 ++ l2] does what the call on [l1] does and then, unless that
    raised, what the call on [l2] does on the module it left. *)
Theorem depends_composes {OM : OptionModule}
    (self : module.Module.t) (l1 l2 : list string) (steps : nat) :
  module.Module.depends_call steps (Other (Sequence (l1 ++ l2))) self
  = match module.Module.depends_call steps (Other (Sequence l1)) self with
    | Some (Return _, self1) =>
        module.Module.depends_call steps (Other (Sequence l2)) self1
    | Some (Raise e, self1) => Some (Raise e, self1)
    | None => None
    end.
Proof.
  simpl. unfold module.Module.depends, listify. rewrite depends_loop_seq.
  by destruct (module.Module.depends_loop l1 self) as [[[]|e] self1].
Qed.

(** X3: whatever [depends] is given and whether it returns or raises, it
    only appends: the old dependencies stay in front, what follows them is
    a prefix of the names given, and no other attribute of the module
    changes. *)
Theorem depends_only_appends {OM : OptionModule}
    (self self' : module.Module.t) (dependencies : str_or_list) r :
  module.Module.depends dependencies self = (r, self') →
  ∃ added,
    added `prefix_of` listify dependencies
    ∧ self'.(module.Module.dependencies)
      = self.(module.Module.dependencies) ++ added
    ∧ self'.(module.Module.options) = self.(module.Module.options)
    ∧ self'.(module.Module.name) = self.(module.Module.name)
    ∧ self'.(module.Module.full_name) = self.(module.Module.full_name)
    ∧ self'.(module.Module.description) = self.(module.Module.description)
    ∧ self'.(module.Module.functions) = self.(module.Module.functions)
    ∧ self'.(module.Module.repository) = self.(module.Module.repository)
    ∧ self'.(module.Module.filename) = self.(module.Module.filename)
    ∧ self'.(module.Module.path) = self.(module.Module.path).
Proof.
  intros (added & Hpre & _ & -> & _)%depends_loop_outcome.
  exists added. split; [done|]. apply foldl_append_dependency.
Qed.

Lemma depends_only_appends_witness :
  ∃ added,
    added `prefix_of` ["core:gpio"; "bad"]
    ∧ (module.Module.append_dependency (OM := scenario.option_module)
         "core:gpio" scenario.uart).(module.Module.dependencies)
      = scenario.uart.(module.Module.dependencies) ++ added.
Proof.
  destruct (@depends_only_appends scenario.option_module scenario.uart
              (module.Module.append_dependency "core:gpio" scenario.uart)
              (Sequence ["core:gpio"; "bad"])
              (Raise (malformed_module_name "bad")) eq_refl)
    as (added & Hpre & Hdeps & _).
  exists added. split; [exact Hpre|exact Hdeps].
Defined.

(** ** The grammar of module names *)

(** No segment of a split holds the separator. *)
Lemma str_split_segments sep s :
  Forall (λ x, str_count sep x = 0) (str_split sep s).
Proof.
  induction s as [|c s IH]; simpl; [by repeat constructor|].
  case_decide as Hc; [by constructor|].
  destruct (str_split sep s) as [|x xs]; [repeat constructor; simpl|].
  - by rewrite decide_False.
  - apply Forall_cons in IH as [Hx Hxs]. constructor; [|done].
    simpl. by rewrite decide_False.
Qed.

Lemma str_count_qualified R n :
  str_count colon (R +:+ ":" +:+ n) = str_count colon R + 1 + str_count colon n.
Proof.
  rewrite str_count_app. change (":" +:+ n) with (String colon n).
  simpl. rewrite ?decide_True by done. lia.
Qed.

(** X4: the names [verify_module_name] accepts are exactly the strings
    made of a colon-free part, a colon and a colon-free part, each part
    possibly empty. *)
Theorem module_name_grammar (s : string) :
  module.verify_module_name s = Return ()
  ↔ ∃ repo modl,
      s = repo +:+ ":" +:+ modl
      ∧ str_count colon repo = 0
      ∧ str_count colon modl = 0.
Proof.
  split.
  - unfold module.verify_module_name. case_decide as Hlen; [done|]. intros _.
    pose proof (str_split_segments colon s) as Hseg.
    destruct (str_split colon s) as [|a [|b [|c l]]] eqn:Hs; simpl in Hlen;
      try lia.
    apply str_split_two in Hs as ->.
    apply Forall_cons in Hseg as [Ha Hseg]. apply Forall_cons in Hseg as [Hb _].
    by exists a, b.
  - intros (repo & modl & -> & Hrepo & Hmodl). apply verify_module_name_ok.
    rewrite str_count_qualified. lia.
Qed.

Lemma module_name_grammar_witness :
  module.verify_module_name "core:gpio" = Return ()
  ∧ ∃ repo modl,
      ":" = repo +:+ ":" +:+ modl
      ∧ str_count colon repo = 0
      ∧ str_count colon modl = 0.
Proof.
  split.
  - apply (module_name_grammar "core:gpio"). by exists "core", "gpio".
  - apply (module_name_grammar ":"). reflexivity.
Defined.

(** X5: [set_name] on a module makes its full name the repository's name,
    a colon and the given name, "None" standing for the name of a
    repository that has none yet; that full name is a module name
    [verify_module_name] accepts exactly when neither part holds a
    colon. *)
Theorem module_full_name {OM : OptionModule}
    (self : module.Module.t) (n : string) :
  let R := self.(module.Module.repository).(repository.Repository.name) in
  let self' := module.Module.set_name n self in
  self'.(module.Module.full_name) = Some (pystr R +:+ ":" +:+ n)
  ∧ (R = None → self'.(module.Module.full_name) = Some ("None:" +:+ n))
  ∧ (module.verify_module_name (pystr self'.(module.Module.full_name)) = Return ()
     ↔ str_count colon (pystr R) = 0 ∧ str_count colon n = 0)
  ∧ (str_count colon (pystr R) = 0 → str_count colon n = 0 →
     ∀ other : module.Module.t,
       module.Module.depends (Single (pystr self'.(module.Module.full_name))) other
       = (Return (),
          module.Module.append_dependency (pystr R +:+ ":" +:+ n) other)).
Proof.
  intros R self'. split; [done|]. split.
  { unfold R. intros HR. simpl. by rewrite HR. }
  split.
  - simpl. fold R. split.
    + destruct (decide (str_count colon (pystr R +:+ ":" +:+ n) = 1)) as [Hc|Hc].
      * rewrite str_count_qualified in Hc. lia.
      * by rewrite verify_module_name_bad.
    + intros [HR Hn]. apply verify_module_name_ok.
      rewrite str_count_qualified. lia.
  - intros HR Hn other. simpl. fold R.
    unfold module.Module.depends, listify. rewrite depends_loop_cons.
    rewrite verify_module_name_ok; [done|].
    rewrite str_count_qualified. lia.
Qed.

Lemma module_full_name_witness :
  scenario.uart.(module.Module.full_name) = Some "core:uart"
  ∧ module.verify_module_name "core:uart" = Return ()
  ∧ module.Module.depends (OM := scenario.option_module)
      (Single "core:uart") scenario.uart
    = (Return (), module.Module.append_dependency "core:uart" scenario.uart)
  ∧ (module.Module.set_name (OM := scenario.option_module) "uart"
       (module.Module.__init__ (repository.Repository.__init__ "/src/core")
          "/src/core/uart/module.lb" "/src/core/uart")).(module.Module.full_name)
    = Some "None:uart".
Proof.
  destruct (@module_full_name scenario.option_module
              (module.Module.__init__ scenario.core
                 "/src/core/uart/module.lb" "/src/core/uart") "uart")
    as (Hfull & _ & Hverify & Hdep).
  destruct (@module_full_name scenario.option_module
              (module.Module.__init__ (repository.Repository.__init__ "/src/core")
                 "/src/core/uart/module.lb" "/src/core/uart") "uart")
    as (_ & Hnone & _).
  split; [exact Hfull|]. split; [|split].
  - apply Hverify. by split.
  - apply (Hdep eq_refl eq_refl scenario.uart).
  - apply Hnone. reflexivity.
Defined.

(** ** Outcomes of option declaration *)

Section dict_order.
Context {V : Type}.
Implicit Types (d : dict V) (k : string) (v : V).

Lemma dict_get_None_inv d k : dict_get d k = None → k ∉ d.*1.
Proof.
  induction d as [|[k0 w] d IH]; simpl; [intros _; apply not_elem_of_nil|].
  case_decide as Hk; [done|]. intros Hget.
  apply not_elem_of_cons. split; [done|by apply IH].
Qed.

Lemma dict_get_Some_inv d k v : dict_get d k = Some v → k ∈ d.*1.
Proof.
  intros Hget. destruct (decide (k ∈ d.*1)) as [|Hk]; [done|].
  by rewrite dict_get_None in Hget.
Qed.

(** Storing under a key the dictionary does not hold appends the entry. *)
Lemma dict_setitem_fresh d k v :
  dict_get d k = None → dict_setitem d k v = d ++ [(k, v)].
Proof.
  induction d as [|[k0 w] d IH]; simpl; [done|].
  case_decide as Hk; [done|]. intros Hget. by rewrite IH.
Qed.

(** Storing under a key the dictionary holds keeps the keys as they are. *)
Lemma dict_setitem_keys_present d k v :
  k ∈ d.*1 → (dict_setitem d k v).*1 = d.*1.
Proof.
  induction d as [|[k0 w] d IH]; [by intros ?%elem_of_nil|].
  rewrite fmap_cons. cbn [dict_setitem fst].
  intros [?|Hin]%elem_of_cons; case_decide as Hk; try done.
  rewrite fmap_cons. cbn [fst]. f_equal. by apply IH.
Qed.

Lemma dict_setitem_keys d k v :
  (dict_setitem d k v).*1 = if decide (k ∈ d.*1) then d.*1 else d.*1 ++ [k].
Proof.
  case_decide as Hk.
  - by apply dict_setitem_keys_present.
  - rewrite dict_setitem_fresh by by apply dict_get_None.
    by rewrite fmap_app.
Qed.

Lemma dict_setitem_elem_of d k v k' :
  k' ∈ (dict_setitem d k v).*1 ↔ k' = k ∨ k' ∈ d.*1.
Proof.
  rewrite dict_setitem_keys. case_decide as Hk.
  - split; [by right|]. by intros [->|?].
  - rewrite elem_of_app, list_elem_of_singleton. tauto.
Qed.

Lemma dict_setitem_wf d k v : dict_wf d → dict_wf (dict_setitem d k v).
Proof.
  unfold dict_wf. rewrite dict_setitem_keys. case_decide as Hk; [done|].
  intros Hwf. apply NoDup_app. split; [done|]. split.
  - intros x Hx ->%list_elem_of_singleton. done.
  - apply NoDup_singleton.
Qed.
End dict_order.

Section add_outcomes.
Context {OM : OptionModule}.

Lemma repository_add_cases init n d default (self : repository.Repository.t) :
  repository.Repository.add init n d default self
  = match dict_get self.(repository.Repository.options) n with
    | Some _ => (Raise (option_already_defined n), self)
    | None =>
        match init n d default with
        | Raise e => (Raise e, self)
        | Return o => (Return (), repository.Repository.store_option n o self)
        end
    end.
Proof.
  unfold repository.Repository.add, repository.Repository._check_for_duplicates,
    dict_contains.
  by destruct (dict_get (repository.Repository.options self) n).
Qed.

Lemma module_add_cases init n d default (self : module.Module.t) :
  module.Module.add init n d default self
  = match dict_get self.(module.Module.options) n with
    | Some _ => (Raise (option_already_defined n), self)
    | None =>
        match init n d default with
        | Raise e => (Raise e, self)
        | Return o => (Return (), module.Module.store_option n o self)
        end
    end.
Proof.
  unfold module.Module.add, module.Module._check_for_duplicates, dict_contains.
  by destruct (dict_get (module.Module.options self) n).
Qed.
End add_outcomes.

(** X6: what a call of [add_option], [add_boolean_option] or
    [add_numeric_option] on a repository leaves. When it returns, the name
    was not an option, the constructor built an option, and the option map
    is the old one with that option as its new last entry: the other
    options keep their places and values. When it raises, the repository
    is unchanged, and the error is the duplicate error if the name was an
    option, whatever the constructor would say, and the constructor's own
    error otherwise. In both cases the map still holds each name once and
    the name, path and modules of the repository are untouched. *)
Theorem repository_add_option_outcome {OM : OptionModule}
    method init n d default (self self' : repository.Repository.t) r :
  (method, init) ∈
    [ (repository.Repository.add_option, Option_init);
      (repository.Repository.add_boolean_option, BooleanOption_init);
      (repository.Repository.add_numeric_option, NumericOption_init) ] →
  method n d default self = (r, self') →
  match r with
  | Return _ =>
      dict_get self.(repository.Repository.options) n = None
      ∧ ∃ o, init n d default = Return o
             ∧ self'.(repository.Repository.options)
               = self.(repository.Repository.options) ++ [(n, o)]
  | Raise e =>
      self' = self
      ∧ ((is_Some (dict_get self.(repository.Repository.options) n)
          ∧ e = option_already_defined n)
         ∨ (dict_get self.(repository.Repository.options) n = None
            ∧ init n d default = Raise e))
  end
  ∧ (dict_wf self.(repository.Repository.options) →
     dict_wf self'.(repository.Repository.options))
  ∧ self'.(repository.Repository.name) = self.(repository.Repository.name)
  ∧ self'.(repository.Repository.path) = self.(repository.Repository.path)
  ∧ self'.(repository.Repository.modules) = self.(repository.Repository.modules).
Proof.
  intros Hmethod.
  assert (method = repository.Repository.add init) as ->.
  { repeat (apply elem_of_cons in Hmethod as [[= -> ->]|Hmethod]; [done|]).
    by apply elem_of_nil in Hmethod. }
  rewrite repository_add_cases.
  destruct (dict_get (repository.Repository.options self) n) as [o0|] eqn:Hget.
  - intros [= <- <-]. split; [|done]. split; [done|]. left. by split; [eexists|].
  - destruct (init n d default) as [o|e] eqn:Hinit; intros [= <- <-].
    + split; [|split; [|done]].
      * split; [done|]. exists o. split; [done|]. by apply dict_setitem_fresh.
      * apply dict_setitem_wf.
    + split; [|done]. split; [done|]. by right.
Qed.

Lemma repository_add_option_outcome_witness :
  (dict_get scenario.core.(repository.Repository.options) "arch" = None
   ∧ ∃ o, scenario.make "arch" "target architecture" (scenario.VStr "avr") = Return o
          ∧ (repository.Repository.store_option (OM := scenario.option_module)
               "arch" scenario.arch scenario.core).(repository.Repository.options)
            = scenario.core.(repository.Repository.options) ++ [("arch", o)])
  ∧ (scenario.core = scenario.core
     ∧ ((is_Some (dict_get scenario.core.(repository.Repository.options) "debug")
         ∧ BlobException "Invalid boolean value for 'debug'"
           = option_already_defined "debug")
        ∨ (dict_get scenario.core.(repository.Repository.options) "debug" = None
           ∧ scenario.make_boolean "debug" "debug build" (scenario.VInt 1)
             = Raise (BlobException "Invalid boolean value for 'debug'")))).
Proof.
  split.
  - apply (@repository_add_option_outcome scenario.option_module
             repository.Repository.add_option Option_init
             "arch" "target architecture" (scenario.VStr "avr") scenario.core
             (repository.Repository.store_option (OM := scenario.option_module)
                "arch" scenario.arch scenario.core)
             (Return ())); [|reflexivity].
    apply list_elem_of_here.
  - apply (@repository_add_option_outcome scenario.option_module
             repository.Repository.add_boolean_option BooleanOption_init
             "debug" "debug build" (scenario.VInt 1) scenario.core scenario.core
             (Raise (BlobException "Invalid boolean value for 'debug'")));
      [|reflexivity].
    apply list_elem_of_further, list_elem_of_here.
Defined.

(** X7: the same for a module: a call of [add_option],
    [add_boolean_option] or [add_numeric_option] that returns has appended
    the option the constructor built as the last entry of the option map,
    under a name that was not there; a call that raises leaves the module
    unchanged, with the duplicate error if the name was an option and the
    constructor's error otherwise. The map still holds each name once, and
    the dependencies and names of the module are untouched. *)
Theorem module_add_option_outcome {OM : OptionModule}
    method init n d default (self self' : module.Module.t) r :
  (method, init) ∈
    [ (module.Module.add_option, Option_init);
      (module.Module.add_boolean_option, BooleanOption_init);
      (module.Module.add_numeric_option, NumericOption_init) ] →
  method n d default self = (r, self') →
  match r with
  | Return _ =>
      dict_get self.(module.Module.options) n = None
      ∧ ∃ o, init n d default = Return o
             ∧ self'.(module.Module.options)
               = self.(module.Module.options) ++ [(n, o)]
  | Raise e =>
      self' = self
      ∧ ((is_Some (dict_get self.(module.Module.options) n)
          ∧ e = option_already_defined n)
         ∨ (dict_get self.(module.Module.options) n = None
            ∧ init n d default = Raise e))
  end
  ∧ (dict_wf self.(module.Module.options) →
     dict_wf self'.(module.Module.options))
  ∧ self'.(module.Module.dependencies) = self.(module.Module.dependencies)
  ∧ self'.(module.Module.name) = self.(module.Module.name)
  ∧ self'.(module.Module.full_name) = self.(module.Module.full_name).
Proof.
  intros Hmethod.
  assert (method = module.Module.add init) as ->.
  { repeat (apply elem_of_cons in Hmethod as [[= -> ->]|Hmethod]; [done|]).
    by apply elem_of_nil in Hmethod. }
  rewrite module_add_cases.
  destruct (dict_get (module.Module.options self) n) as [o0|] eqn:Hget.
  - intros [= <- <-]. split; [|done]. split; [done|]. left. by split; [eexists|].
  - destruct (init n d default) as [o|e] eqn:Hinit; intros [= <- <-].
    + split; [|split; [|done]].
      * split; [done|]. exists o. split; [done|]. by apply dict_setitem_fresh.
      * apply dict_setitem_wf.
    + split; [|done]. split; [done|]. by right.
Qed.

Lemma module_add_option_outcome_witness :
  dict_get scenario.uart.(module.Module.options) "baudrate" = None
  ∧ ∃ o, scenario.make_numeric "baudrate" "baud rate" (scenario.VInt 9600) = Return o
         ∧ (module.Module.store_option (OM := scenario.option_module)
              "baudrate" scenario.baudrate scenario.uart).(module.Module.options)
           = scenario.uart.(module.Module.options) ++ [("baudrate", o)].
Proof.
  apply (@module_add_option_outcome scenario.option_module
           module.Module.add_numeric_option NumericOption_init
           "baudrate" "baud rate" (scenario.VInt 9600) scenario.uart
           (module.Module.store_option (OM := scenario.option_module)
              "baudrate" scenario.baudrate scenario.uart)
           (Return ())); [|reflexivity].
  apply list_elem_of_further, list_elem_of_further, list_elem_of_here.
Defined.

(** ** Outcomes of the lookups *)

Section lookup_outcomes.
Context {OM : OptionModule}.

(** The key the code looks up for a key of two segments is its
    fully-qualified form. *)
Lemma qualified_repo_key_code own key repo option :
  str_split colon key = [repo; option] →
  (if decide (repo = "") then pystr own +:+ ":" +:+ option else key)
  = qualified_repo_key own repo option.
Proof.
  intros Hs. unfold qualified_repo_key. case_decide; [done|].
  by apply str_split_two.
Qed.

(** The guarded lookup leaves the store as it is, and what it raises is
    never the [KeyError]. *)
Lemma guarded_lookup_outcome (l : loc) (key : string) (h h' : heap) r :
  try_except_KeyError
    (opt ← getitem l key; mret (Option_value opt))
    (raise (BlobException ("Unknown option name '" +:+ key +:+ "'"))) h
  = Some (r, h') →
  h' = h ∧ ∀ e, r = Raise e → e = BlobException ("Unknown option name '" +:+ key +:+ "'").
Proof.
  destruct (h !! l) as [d|] eqn:Hl.
  - rewrite (guarded_lookup _ _ _ _ Hl). intros [= <- <-]. split; [done|].
    intros e. by destruct (dict_get d key); intros [= <-].
  - unfold try_except_KeyError, getitem, deref, mbind, M_bind. by rewrite Hl.
Qed.
End lookup_outcomes.

(** X8: a key of the right shape whose fully-qualified form is in the
    table it addresses resolves to the current value of the option stored
    there, and the store is untouched: two segments on the repository
    resolver, two segments (repository table) and three segments (module
    table) on the module resolver. A segment that is not empty is taken as
    it is, so the options of another repository or module can be read. *)
Theorem lookup_known_option {OM : OptionModule} :
  (∀ (self : repository.OptionNameResolver.t) key repo option (h : heap) d o,
     str_split colon key = [repo; option] →
     h !! self.(repository.OptionNameResolver.options) = Some d →
     dict_get d (qualified_repo_key
                   self.(repository.OptionNameResolver.repository).(repository.Repository.name)
                   repo option) = Some o →
     repository.OptionNameResolver.__getitem__ self key h
     = Some (Return (Option_value o), h))
  ∧
  (∀ (self : module.OptionNameResolver.t) key repo option (h : heap) d o,
     str_split colon key = [repo; option] →
     h !! self.(module.OptionNameResolver.repo_options) = Some d →
     dict_get d (qualified_repo_key
                   self.(module.OptionNameResolver.repository).(repository.Repository.name)
                   repo option) = Some o →
     module.OptionNameResolver.__getitem__ self key h
     = Some (Return (Option_value o), h))
  ∧
  (∀ (self : module.OptionNameResolver.t) key repo modl option (h : heap) d o,
     str_split colon key = [repo; modl; option] →
     h !! self.(module.OptionNameResolver.module_options) = Some d →
     dict_get d (qualified_module_key
                   self.(module.OptionNameResolver.repository).(repository.Repository.name)
                   self.(module.OptionNameResolver.module).(module.Module.name)
                   repo modl option) = Some o →
     module.OptionNameResolver.__getitem__ self key h
     = Some (Return (Option_value o), h)).
Proof.
  split; [|split].
  - intros self key repo option h d o Hs Hd Hget.
    rewrite (repository_getitem_two _ _ _ _ _ _ Hs Hd). cbv zeta.
    rewrite (qualified_repo_key_code _ _ _ _ Hs). by rewrite Hget.
  - intros self key repo option h d o Hs Hd Hget.
    rewrite (module_getitem_two _ _ _ _ _ _ Hs Hd). cbv zeta.
    rewrite (qualified_repo_key_code _ _ _ _ Hs). by rewrite Hget.
  - intros self key repo modl option h d o Hs Hd Hget.
    rewrite (module_getitem_three _ _ _ _ _ _ _ Hs Hd). cbv zeta.
    unfold qualified_module_key in Hget. by rewrite Hget.
Qed.

Lemma lookup_known_option_witness :
  repository.OptionNameResolver.__getitem__
    scenario.repo_resolver "core:arch" scenario.tables
  = Some (Return (scenario.VStr "avr"), scenario.tables)
  ∧ module.OptionNameResolver.__getitem__
      scenario.module_resolver ":arch" scenario.tables
    = Some (Return (scenario.VStr "avr"), scenario.tables)
  ∧ module.OptionNameResolver.__getitem__
      scenario.module_resolver "core::baudrate" scenario.tables
    = Some (Return (scenario.VInt 9600), scenario.tables).
Proof.
  destruct (@lookup_known_option scenario.option_module) as (Hrepo & Hmod2 & Hmod3).
  split; [|split].
  - apply (Hrepo scenario.repo_resolver "core:arch" "core" "arch" scenario.tables
             [("core:arch", scenario.arch)] scenario.arch); reflexivity.
  - apply (Hmod2 scenario.module_resolver ":arch" "" "arch" scenario.tables
             [("core:arch", scenario.arch)] scenario.arch); reflexivity.
  - apply (Hmod3 scenario.module_resolver "core::baudrate" "core" "" "baudrate"
             scenario.tables [("core:uart:baudrate", scenario.baudrate)]
             scenario.baudrate); reflexivity.
Defined.

(** X9: a lookup on the module resolver, its two tables being in the
    store, always ends, with the store untouched, in one of three ways: a
    value; an [OptionFormatException], exactly when the key has neither two
    nor three segments; or a plain [BlobException] for a key of two or
    three segments. The [KeyError] of the table never reaches the
    caller. *)
Theorem module_lookup_outcome {OM : OptionModule}
    (self : module.OptionNameResolver.t) (key : string) (h : heap) dr dm :
  h !! self.(module.OptionNameResolver.repo_options) = Some dr →
  h !! self.(module.OptionNameResolver.module_options) = Some dm →
  ∃ r,
    module.OptionNameResolver.__getitem__ self key h = Some (r, h)
    ∧ (∀ v, r = Return v →
         length (str_split colon key) = 2 ∨ length (str_split colon key) = 3)
    ∧ (∀ e, r = Raise e →
         is_BlobException e = true
         ∧ (is_OptionFormatException e = true
            ↔ length (str_split colon key) ≠ 2
              ∧ length (str_split colon key) ≠ 3)).
Proof.
  intros Hr Hm.
  destruct (str_split colon key) as [|a [|b [|c [|c' l]]]] eqn:Hs.
  - by apply str_split_nonempty in Hs.
  - eexists. split; [apply module_getitem_other; rewrite Hs; simpl; lia|].
    split; [done|]. intros e [= <-]. split; [done|]. simpl. split; [lia|done].
  - eexists. split; [by apply (module_getitem_two _ _ _ _ _ _ Hs Hr)|].
    cbv zeta. split; [intros; simpl; lia|]. intros e.
    destruct (dict_get dr _); intros [= <-]. simpl. split; [done|].
    split; [done|lia].
  - eexists. split; [by apply (module_getitem_three _ _ _ _ _ _ _ Hs Hm)|].
    cbv zeta. split; [intros; simpl; lia|]. intros e.
    destruct (dict_get dm _); intros [= <-]. simpl. split; [done|].
    split; [done|lia].
  - eexists. split; [apply module_getitem_other; rewrite Hs; simpl; lia|].
    split; [done|]. intros e [= <-]. split; [done|]. simpl. split; [lia|done].
Qed.

Lemma module_lookup_outcome_witness :
  ∃ r,
    module.OptionNameResolver.__getitem__
      scenario.module_resolver "core:uart:parity" scenario.tables
    = Some (r, scenario.tables)
    ∧ (∀ v, r = Return v →
         length (str_split colon "core:uart:parity") = 2
         ∨ length (str_split colon "core:uart:parity") = 3)
    ∧ (∀ e, r = Raise e →
         is_BlobException e = true
         ∧ (is_OptionFormatException e = true
            ↔ length (str_split colon "core:uart:parity") ≠ 2
              ∧ length (str_split colon "core:uart:parity") ≠ 3)).
Proof.
  apply (@module_lookup_outcome scenario.option_module scenario.module_resolver
           "core:uart:parity" scenario.tables
           [("core:arch", scenario.arch)]
           [("core:uart:baudrate", scenario.baudrate)]); reflexivity.
Defined.

(** X10: on every key of two segments the module resolver does what the
    repository resolver of the same repository over the same repository
    table does: the same value or the same error, whatever the store
    holds. *)
Theorem module_resolver_two_segments {OM : OptionModule}
    (m : module.OptionNameResolver.t) (r : repository.OptionNameResolver.t)
    (key : string) (h : heap) :
  m.(module.OptionNameResolver.repository) = r.(repository.OptionNameResolver.repository) →
  m.(module.OptionNameResolver.repo_options) = r.(repository.OptionNameResolver.options) →
  length (str_split colon key) = 2 →
  module.OptionNameResolver.__getitem__ m key h
  = repository.OptionNameResolver.__getitem__ r key h.
Proof.
  intros Hrepo Hopts Hlen.
  unfold module.OptionNameResolver.__getitem__,
    repository.OptionNameResolver.__getitem__.
  destruct (str_split colon key) as [|a [|b [|c l]]]; try done.
  by rewrite Hrepo, Hopts.
Qed.

Lemma module_resolver_two_segments_witness :
  length (str_split colon ":arch") = 2
  ∧ module.OptionNameResolver.__getitem__
      scenario.module_resolver ":arch" scenario.tables
    = repository.OptionNameResolver.__getitem__
        scenario.repo_resolver ":arch" scenario.tables.
Proof.
  split; [reflexivity|].
  apply (@module_resolver_two_segments scenario.option_module
           scenario.module_resolver scenario.repo_resolver ":arch" scenario.tables);
    reflexivity.
Defined.

(** ** The resolvers only read *)

Section read_only.
Context {OM : OptionModule}.

Lemma deref_bind_outcome {A} (l : loc) (f : dict Option → A) (h h' : heap) r :
  (d ← deref l; mret (f d)) h = Some (r, h') → h' = h.
Proof.
  unfold deref, mbind, M_bind, mret, M_ret.
  destruct (h !! l); [|done]. by intros [= _ <-].
Qed.

Lemma module_getitem_outcome (self : module.OptionNameResolver.t) key (h h' : heap) r :
  module.OptionNameResolver.__getitem__ self key h = Some (r, h') →
  h' = h ∧ ∀ e, r = Raise e → is_BlobException e = true.
Proof.
  unfold module.OptionNameResolver.__getitem__.
  destruct (str_split colon key) as [|a [|b [|c [|c' l]]]];
    try (intros [= <- <-]; split; [done|]; by intros e [= <-]).
  - intros [-> Hexn]%guarded_lookup_outcome. split; [done|].
    by intros e ->%Hexn.
  - intros [-> Hexn]%guarded_lookup_outcome. split; [done|].
    by intros e ->%Hexn.
Qed.

Lemma repository_getitem_outcome (self : repository.OptionNameResolver.t) key
    (h h' : heap) r :
  repository.OptionNameResolver.__getitem__ self key h = Some (r, h') →
  h' = h ∧ ∀ e, r = Raise e → is_BlobException e = true.
Proof.
  unfold repository.OptionNameResolver.__getitem__.
  destruct (str_split colon key) as [|a [|b [|c l]]];
    try (intros [= <- <-]; split; [done|]; by intros e [= <-]).
  intros [-> Hexn]%guarded_lookup_outcome. split; [done|].
  by intros e ->%Hexn.
Qed.

Lemma module_repr_outcome (self : module.OptionNameResolver.t) (h h' : heap) r :
  module.OptionNameResolver.__repr__ self h = Some (r, h') →
  ∃ d, h' = h ++ [d].
Proof.
  unfold module.OptionNameResolver.__repr__, copy, update, modify, alloc,
    deref, mbind, M_bind, mret, M_ret.
  destruct (h !! module.OptionNameResolver.module_options self) as [dm|]; [|done].
  destruct ((h ++ [dm]) !! module.OptionNameResolver.repo_options self)
    as [dr|]; [|done].
  rewrite list_lookup_middle by done.
  rewrite insert_app_r_alt, Nat.sub_diag by done. simpl.
  rewrite list_lookup_middle by done.
  intros [= _ <-]. by eexists.
Qed.
End read_only.

(** X11: no operation of a resolver changes a dictionary of the store.
    Lookup and size of either resolver and the description of the
    repository resolver leave the store exactly as it was; the description
    of the module resolver adds one dictionary, its merged copy, after
    those that were there. What a lookup raises is always a
    [BlobException]. *)
Theorem resolvers_only_read {OM : OptionModule} :
  (∀ (self : repository.OptionNameResolver.t) key (h h' : heap) r,
     repository.OptionNameResolver.__getitem__ self key h = Some (r, h') →
     h' = h ∧ ∀ e, r = Raise e → is_BlobException e = true)
  ∧ (∀ (self : repository.OptionNameResolver.t) (h h' : heap) r,
       repository.OptionNameResolver.__len__ self h = Some (r, h') → h' = h)
  ∧ (∀ (self : repository.OptionNameResolver.t) (h h' : heap) r,
       repository.OptionNameResolver.__repr__ self h = Some (r, h') → h' = h)
  ∧ (∀ (self : module.OptionNameResolver.t) key (h h' : heap) r,
       module.OptionNameResolver.__getitem__ self key h = Some (r, h') →
       h' = h ∧ ∀ e, r = Raise e → is_BlobException e = true)
  ∧ (∀ (self : module.OptionNameResolver.t) (h h' : heap) r,
       module.OptionNameResolver.__len__ self h = Some (r, h') → h' = h)
  ∧ (∀ (self : module.OptionNameResolver.t) (h h' : heap) r,
       module.OptionNameResolver.__repr__ self h = Some (r, h') →
       (∃ d, h' = h ++ [d])
       ∧ ∀ l d, h !! l = Some d → h' !! l = Some d).
Proof.
  split; [apply repository_getitem_outcome|].
  split; [intros self h h' r; apply deref_bind_outcome|].
  split; [intros self h h' r; apply deref_bind_outcome|].
  split; [apply module_getitem_outcome|].
  split.
  - intros self h h' r. unfold module.OptionNameResolver.__len__,
      deref, mbind, M_bind, mret, M_ret.
    destruct (h !! module.OptionNameResolver.module_options self); [|done].
    destruct (h !! module.OptionNameResolver.repo_options self); [|done].
    by intros [= _ <-].
  - intros self h h' r [d ->]%module_repr_outcome. split; [by exists d|].
    intros l d' Hl. by apply lookup_app_l_Some.
Qed.

Lemma resolvers_only_read_witness :
  (∃ d, scenario.shared_tables ++
          [[("x", scenario.arch); ("core:uart:baudrate", scenario.baudrate);
            ("core:arch", scenario.arch); ("core:speed", scenario.baudrate)]]
        = scenario.shared_tables ++ [d])
  ∧ scenario.tables = scenario.tables.
Proof.
  destruct (@resolvers_only_read scenario.option_module)
    as (_ & _ & _ & Hget & _ & Hrepr).
  split.
  - apply (Hrepr scenario.module_resolver scenario.shared_tables _
             (Return "{'x': Option(arch), 'core:uart:baudrate': Option(baudrate), 'core:arch': Option(arch), 'core:speed': Option(baudrate)}")).
    reflexivity.
  - apply (Hget scenario.module_resolver "a:b:c:d" scenario.tables scenario.tables
             (Raise (OptionFormatException_init "a:b:c:d"))).
    reflexivity.
Defined.

(** ** The merged description and the size *)

Lemma filter_ext_elem_of {A} (P Q : A → Prop)
    `{!∀ x, Decision (P x), !∀ x, Decision (Q x)} (l : list A) :
  (∀ x, x ∈ l → P x ↔ Q x) → filter P l = filter Q l.
Proof.
  induction l as [|a l IH]; intros Hext; [done|].
  rewrite !filter_cons.
  destruct (decide (P a)) as [HP|HP], (decide (Q a)) as [HQ|HQ].
  - f_equal. apply IH. intros x Hx. apply Hext. by right.
  - destruct HQ. by apply (Hext a); [left|].
  - destruct HP. by apply (Hext a); [left|].
  - apply IH. intros x Hx. apply Hext. by right.
Qed.

Section merged_keys.
Context {V : Type}.
Implicit Types (d other : dict V).

(** The keys after [d.update(other)]: those of [d] in their order, then
    the keys of [other] that [d] did not hold, in [other]'s order. *)
Lemma dict_update_keys d other :
  dict_wf other →
  (dict_update d other).*1 = d.*1 ++ filter (λ k, k ∉ d.*1) other.*1.
Proof.
  unfold dict_wf, dict_update. revert d.
  induction other as [|[k v] other IH]; intros d Hwf; simpl.
  - by rewrite app_nil_r.
  - apply NoDup_cons in Hwf as [Hk Hwf]. rewrite IH by done.
    rewrite dict_setitem_keys. rewrite filter_cons. simpl.
    destruct (decide (k ∈ d.*1)) as [Hin|Hin].
    + by rewrite decide_False by (by intros ?).
    + rewrite decide_True by done. rewrite <- app_assoc. simpl. do 2 f_equal.
      apply filter_ext_elem_of. intros k' Hk'. rewrite elem_of_app.
      rewrite list_elem_of_singleton. split; [tauto|].
      intros Hnot [?| ->]; done.
Qed.

Lemma dict_update_wf d other :
  dict_wf d → dict_wf other → dict_wf (dict_update d other).
Proof.
  intros Hd Hother. unfold dict_wf. rewrite dict_update_keys by done.
  apply NoDup_app. split; [done|]. split.
  - intros k Hk Hin. by apply list_elem_of_filter in Hin as [? _].
  - by apply NoDup_filter.
Qed.

Lemma dict_update_len d other :
  dict_wf other →
  dict_len (dict_update d other) + length (filter (λ k, k ∈ d.*1) other.*1)
  = dict_len d + dict_len other.
Proof.
  intros Hother. unfold dict_len.
  rewrite <- (length_fmap fst (dict_update d other)), dict_update_keys by done.
  rewrite length_app, !length_fmap.
  pose proof (filter_app_complement (λ k, k ∈ d.*1) other.*1) as Hperm.
  apply Permutation_length in Hperm.
  rewrite length_app, length_fmap in Hperm. lia.
Qed.
End merged_keys.

(** X12: the description of a module resolver lists the keys of the
    module table in their order and after them the keys of the repository
    table that the module table does not hold, each key once; and [size()]
    is the number of entries of the described dictionary plus the number of
    keys the two tables share. *)
Theorem module_resolver_describe_and_size {OM : OptionModule}
    (self : module.OptionNameResolver.t) (h : heap) (dr dm : dict Option) :
  h !! self.(module.OptionNameResolver.repo_options) = Some dr →
  h !! self.(module.OptionNameResolver.module_options) = Some dm →
  dict_wf dr →
  dict_wf dm →
  ∃ merged h',
    module.OptionNameResolver.__repr__ self h = Some (Return (repr merged), h')
    ∧ merged.*1 = dm.*1 ++ filter (λ k, k ∉ dm.*1) dr.*1
    ∧ dict_wf merged
    ∧ module.OptionNameResolver.__len__ self h
      = Some (Return (dict_len merged
                      + length (filter (λ k, k ∈ dm.*1) dr.*1)), h).
Proof.
  intros Hr Hm Hwfr Hwfm.
  exists (dict_update dm dr), (h ++ [dict_update dm dr]).
  split; [|split; [|split]].
  - unfold module.OptionNameResolver.__repr__.
    rewrite (bind_Return _ _ _ _ _ (copy_Some _ _ _ Hm)).
    assert ((h ++ [dm]) !! length h = Some dm) as Hcopy
      by by apply list_lookup_middle.
    assert ((h ++ [dm]) !! self.(module.OptionNameResolver.repo_options) = Some dr)
      as Hr' by by apply lookup_app_l_Some.
    rewrite (bind_Return _ _ _ _ _ (update_Some _ _ _ _ _ Hcopy Hr')).
    rewrite insert_app_r_alt, Nat.sub_diag by done. simpl.
    assert ((h ++ [dict_update dm dr]) !! length h = Some (dict_update dm dr))
      as Hmerged by by apply list_lookup_middle.
    by rewrite (bind_Return _ _ _ _ _ (deref_Some _ _ _ Hmerged)).
  - by apply dict_update_keys.
  - by apply dict_update_wf.
  - unfold module.OptionNameResolver.__len__.
    rewrite (bind_Return _ _ _ _ _ (deref_Some _ _ _ Hm)).
    rewrite (bind_Return _ _ _ _ _ (deref_Some _ _ _ Hr)).
    unfold mret, M_ret. by rewrite dict_update_len.
Qed.

Lemma module_resolver_describe_and_size_witness :
  ∃ merged h',
    module.OptionNameResolver.__repr__ scenario.module_resolver scenario.shared_tables
    = Some (Return (scenario.show merged), h')
    ∧ merged.*1 = ["x"; "core:uart:baudrate"; "core:arch"; "core:speed"]
    ∧ dict_wf merged
    ∧ module.OptionNameResolver.__len__ scenario.module_resolver scenario.shared_tables
      = Some (Return (dict_len merged + 1), scenario.shared_tables).
Proof.
  destruct (@module_resolver_describe_and_size scenario.option_module
              scenario.module_resolver scenario.shared_tables
              [("x", scenario.arch); ("core:arch", scenario.arch);
               ("core:speed", scenario.baudrate)]
              [("x", scenario.baudrate); ("core:uart:baudrate", scenario.baudrate)]
              eq_refl eq_refl)
    as (merged & h' & Hrun & Hkeys & Hwf & Hlen).
  - apply (bool_decide_unpack _). by vm_compute.
  - apply (bool_decide_unpack _). by vm_compute.
  - exists merged, h'. split; [exact Hrun|]. split; [exact Hkeys|].
    split; [exact Hwf|exact Hlen].
Defined.

(** ** Registration of module files *)

Lemma dict_setitem_unit (d : dict unit) (k : string) :
  k ∈ d.*1 → dict_setitem d k () = d.
Proof.
  induction d as [|[k0 []] d IH]; [by intros ?%elem_of_nil|].
  rewrite fmap_cons. cbn [dict_setitem fst].
  intros [?|Hin]%elem_of_cons; case_decide as Hk; try done.
  f_equal. by apply IH.
Qed.

Section module_files.
Context {OM : OptionModule} {OS : OsModule}.
Implicit Types (self : repository.Repository.t).

Lemma register_module_present self (file : string) :
  file ∈ self.(repository.Repository.modules).*1 →
  repository.Repository.register_module file self = self.
Proof.
  intros Hin. unfold repository.Repository.register_module.
  rewrite dict_setitem_unit by done. by destruct self.
Qed.

(** What registering a list of files leaves: the files registered before
    keep their places in front, the keys are the old ones and the files of
    the list, each once, and nothing but the modules changes. *)
Lemma register_modules_fold self (files : list string) :
  let self' := foldl (λ acc f, repository.Repository.register_module f acc)
                 self files in
  (∀ f, f ∈ self'.(repository.Repository.modules).*1
        ↔ f ∈ self.(repository.Repository.modules).*1 ∨ f ∈ files)
  ∧ self.(repository.Repository.modules).*1
    `prefix_of` self'.(repository.Repository.modules).*1
  ∧ (dict_wf self.(repository.Repository.modules) →
     dict_wf self'.(repository.Repository.modules))
  ∧ self'.(repository.Repository.options) = self.(repository.Repository.options)
  ∧ self'.(repository.Repository.name) = self.(repository.Repository.name)
  ∧ self'.(repository.Repository.path) = self.(repository.Repository.path).
Proof.
  revert self. induction files as [|file files IH]; intros self; simpl.
  - split; [|done]. intros f. rewrite elem_of_nil. tauto.
  - destruct (IH (repository.Repository.register_module file self))
      as (Hin & Hpre & Hwf & -> & -> & ->).
    split; [|split; [|split; [|done]]].
    + intros f. rewrite Hin. simpl. rewrite dict_setitem_elem_of, elem_of_cons.
      tauto.
    + etrans; [|exact Hpre]. simpl. rewrite dict_setitem_keys.
      case_decide; [done|]. by apply prefix_app_r.
    + intros Hself. apply Hwf. simpl. by apply dict_setitem_wf.
Qed.

(** The loop of [add_modules] registers relocated files until one of them
    is not a file. *)
Lemma add_modules_loop_outcome self (l : list string) r self' :
  repository.Repository.add_modules_loop l self = (r, self') →
  ∃ added,
    added `prefix_of` l
    ∧ Forall (λ f, os_path_isfile (repository.Repository._relocate f self) = true) added
    ∧ self' = foldl (λ acc f, repository.Repository.register_module f acc) self
                ((λ f, repository.Repository._relocate f self) <$> added)
    ∧ (r = Return () → added = l)
    ∧ (∀ e, r = Raise e →
         ∃ bad rest,
           l = added ++ bad :: rest
           ∧ os_path_isfile (repository.Repository._relocate bad self) = false
           ∧ e = BlobException
                   ("Module file not found '" +:+
                    repository.Repository._relocate bad self +:+ "'")).
Proof.
  revert self. induction l as [|file l IH]; intros self.
  - intros [= <- <-]. exists []. by repeat split.
  - cbn [repository.Repository.add_modules_loop].
    destruct (os_path_isfile (repository.Repository._relocate file self)) eqn:Hfile;
      cbn [negb].
    + intros (added & Hpre & Hok & -> & Hret & Hexn)%IH.
      exists (file :: added). split; [by apply prefix_cons|].
      split; [by constructor|]. split; [done|]. split.
      * by intros ->%Hret.
      * intros e (bad & rest & -> & Hbad & ->)%Hexn. by exists bad, rest.
    + intros [= <- <-]. exists []. split; [apply prefix_nil|].
      split; [done|]. split; [done|]. split; [done|].
      intros e [= <-]. by exists file, l.
Qed.

(** Files that exist and are registered already are accepted and change
    nothing. *)
Lemma add_modules_loop_present self (l : list string) :
  Forall (λ f, os_path_isfile (repository.Repository._relocate f self) = true
               ∧ repository.Repository._relocate f self
                 ∈ self.(repository.Repository.modules).*1) l →
  repository.Repository.add_modules_loop l self = (Return (), self).
Proof.
  induction 1 as [|file l [Hfile Hin] _ IH]; [done|].
  cbn [repository.Repository.add_modules_loop]. rewrite Hfile. cbn [negb].
  by rewrite register_module_present.
Qed.

(** [find_modules] registers, in the order of the walk, the module file of
    every directory of the walk that holds one. *)
Lemma find_modules_fold self (basepath modulefile : string) :
  repository.Repository.find_modules basepath modulefile self
  = foldl (λ acc f, repository.Repository.register_module f acc) self
      (omap (λ entry : string * list string * list string,
               if bool_decide (modulefile ∈ entry.2)
               then Some (os_path_normpath (os_path_join entry.1.1 modulefile))
               else None)
            (os_walk (repository.Repository._relocate basepath self))).
Proof.
  unfold repository.Repository.find_modules. cbv zeta.
  generalize (os_walk (repository.Repository._relocate basepath self)).
  intros walk. revert self.
  induction walk as [|[[dir dirs] files] walk IH]; intros self; [done|].
  cbn [foldl omap]. simpl.
  destruct (bool_decide (modulefile ∈ files)); simpl; apply IH.
Qed.
End module_files.

(** X13: [add_modules] relocates each file name and registers it until a
    relocated name is not a file. It returns exactly when every relocated
    name is a file; otherwise it raises "Module file not found" quoting the
    relocated name of the first that is not, and the files before that one
    stay registered. In both cases the registered paths are the old ones,
    in their places, and the relocated names of the files accepted, each
    path once; the options, name and path of the repository are
    untouched. *)
Theorem add_modules_outcome {OM : OptionModule} {OS : OsModule}
    (self self' : repository.Repository.t) (modules : str_or_list) r :
  repository.Repository.add_modules modules self = (r, self') →
  ∃ added,
    added `prefix_of` listify modules
    ∧ Forall (λ f, os_path_isfile (repository.Repository._relocate f self) = true) added
    ∧ (∀ f, f ∈ self'.(repository.Repository.modules).*1
            ↔ f ∈ self.(repository.Repository.modules).*1
              ∨ ∃ g, g ∈ added ∧ f = repository.Repository._relocate g self)
    ∧ self.(repository.Repository.modules).*1
      `prefix_of` self'.(repository.Repository.modules).*1
    ∧ (dict_wf self.(repository.Repository.modules) →
       dict_wf self'.(repository.Repository.modules))
    ∧ (r = Return () → added = listify modules)
    ∧ (∀ e, r = Raise e →
         ∃ bad rest,
           listify modules = added ++ bad :: rest
           ∧ os_path_isfile (repository.Repository._relocate bad self) = false
           ∧ e = BlobException
                   ("Module file not found '" +:+
                    repository.Repository._relocate bad self +:+ "'"))
    ∧ self'.(repository.Repository.options) = self.(repository.Repository.options)
    ∧ self'.(repository.Repository.name) = self.(repository.Repository.name)
    ∧ self'.(repository.Repository.path) = self.(repository.Repository.path).
Proof.
  intros (added & Hpre & Hok & -> & Hret & Hexn)%add_modules_loop_outcome.
  exists added.
  destruct (register_modules_fold self
              ((λ f, repository.Repository._relocate f self) <$> added))
    as (Hin & Hold & Hwf & Hopts & Hname & Hpath).
  split; [done|]. split; [done|]. split.
  { intros f. split.
    - intros [?|(g & -> & Hg)%list_elem_of_fmap]%Hin; [by left|].
      right. by exists g.
    - intros [?|(g & Hg & ->)]; apply Hin; [by left|].
      right.
      by apply (list_elem_of_fmap_2 (λ f, repository.Repository._relocate f self)). }
  by repeat split.
Qed.

Lemma add_modules_outcome_witness :
  ∃ added,
    added `prefix_of` ["uart/module.lb"; "spi/module.lb"; "gpio/module.lb"]
    ∧ Forall (λ f, os_path_isfile (OsModule := scenario.os_module)
                     (repository.Repository._relocate (OS := scenario.os_module)
                        f scenario.core) = true) added
    ∧ ∀ e, Raise (A := unit) (BlobException "Module file not found '/src/core/spi/module.lb'")
           = Raise e →
        ∃ bad rest,
          ["uart/module.lb"; "spi/module.lb"; "gpio/module.lb"] = added ++ bad :: rest
          ∧ os_path_isfile (OsModule := scenario.os_module)
              (repository.Repository._relocate (OS := scenario.os_module)
                 bad scenario.core) = false
          ∧ e = BlobException
                  ("Module file not found '" +:+
                   repository.Repository._relocate (OS := scenario.os_module)
                     bad scenario.core +:+ "'").
Proof.
  destruct (@add_modules_outcome scenario.option_module scenario.os_module
              scenario.core
              (repository.Repository.register_module "/src/core/uart/module.lb"
                 scenario.core)
              (Sequence ["uart/module.lb"; "spi/module.lb"; "gpio/module.lb"])
              (Raise (BlobException "Module file not found '/src/core/spi/module.lb'"))
              eq_refl)
    as (added & Hpre & Hok & _ & _ & _ & _ & Hexn & _).
  exists added. split; [exact Hpre|]. split; [exact Hok|exact Hexn].
Defined.

(** In the scenario the relative name is joined to the repository's path,
    an absolute one is kept, and the call stops at the first missing
    file. *)
Example add_modules_scenario :
  repository.Repository.add_modules (OS := scenario.os_module)
    (Sequence ["uart/module.lb"; "/src/core/gpio/module.lb"]) scenario.core
  = (Return (),
     repository.Repository.register_module "/src/core/gpio/module.lb"
       (repository.Repository.register_module "/src/core/uart/module.lb"
          scenario.core))
  ∧ repository.Repository.add_modules (OS := scenario.os_module)
      (Sequence ["uart/module.lb"; "spi/module.lb"; "gpio/module.lb"]) scenario.core
    = (Raise (BlobException "Module file not found '/src/core/spi/module.lb'"),
       repository.Repository.register_module "/src/core/uart/module.lb"
         scenario.core).
Proof. split; reflexivity. Qed.

(** X14: registering module files again changes nothing: after a call of
    [add_modules] that returned, the same call returns again and leaves the
    repository as the first call left it. *)
Theorem add_modules_idempotent {OM : OptionModule} {OS : OsModule}
    (self self' : repository.Repository.t) (modules : str_or_list) :
  repository.Repository.add_modules modules self = (Return (), self') →
  repository.Repository.add_modules modules self' = (Return (), self').
Proof.
  intros (added & _ & Hok & -> & Hret & _)%add_modules_loop_outcome.
  rewrite (Hret eq_refl) in Hok |- *.
  destruct (register_modules_fold self
              ((λ f, repository.Repository._relocate f self) <$> listify modules))
    as (Hin & _ & _ & _ & _ & Hpath).
  set (self1 := foldl _ self _) in *.
  assert (∀ f, repository.Repository._relocate f self1
               = repository.Repository._relocate f self) as Hrelocate.
  { intros f. unfold repository.Repository._relocate. by rewrite Hpath. }
  apply add_modules_loop_present. apply Forall_forall. intros f Hf.
  rewrite Hrelocate. split.
  - by apply (proj1 (Forall_forall _ _) Hok).
  - apply Hin. right.
    by apply (list_elem_of_fmap_2 (λ f, repository.Repository._relocate f self)).
Qed.

Lemma add_modules_idempotent_witness :
  repository.Repository.add_modules (OS := scenario.os_module)
    (Sequence ["uart/module.lb"; "/src/core/gpio/module.lb"])
    (repository.Repository.register_module "/src/core/gpio/module.lb"
       (repository.Repository.register_module "/src/core/uart/module.lb"
          scenario.core))
  = (Return (),
     repository.Repository.register_module "/src/core/gpio/module.lb"
       (repository.Repository.register_module "/src/core/uart/module.lb"
          scenario.core)).
Proof.
  apply (@add_modules_idempotent scenario.option_module scenario.os_module
           scenario.core). reflexivity.
Defined.

(** X15: [find_modules] walks the relocated base path and registers, for
    every directory of the walk whose files include the module file name,
    the normalised join of the directory and that name. The registered
    paths afterwards are the old ones, in their places, and those; each
    path is registered once; nothing but the modules changes; and a second
    search from the same base finds nothing new. *)
Theorem find_modules_outcome {OM : OptionModule} {OS : OsModule}
    (self : repository.Repository.t) (basepath modulefile : string) :
  let self' := repository.Repository.find_modules basepath modulefile self in
  (∀ f, f ∈ self'.(repository.Repository.modules).*1
        ↔ f ∈ self.(repository.Repository.modules).*1
          ∨ ∃ dir dirs files,
              (dir, dirs, files)
                ∈ os_walk (repository.Repository._relocate basepath self)
              ∧ modulefile ∈ files
              ∧ f = os_path_normpath (os_path_join dir modulefile))
  ∧ self.(repository.Repository.modules).*1
    `prefix_of` self'.(repository.Repository.modules).*1
  ∧ (dict_wf self.(repository.Repository.modules) →
     dict_wf self'.(repository.Repository.modules))
  ∧ self'.(repository.Repository.options) = self.(repository.Repository.options)
  ∧ self'.(repository.Repository.name) = self.(repository.Repository.name)
  ∧ self'.(repository.Repository.path) = self.(repository.Repository.path)
  ∧ repository.Repository.find_modules basepath modulefile self' = self'.
Proof.
  intros self'. unfold self'. rewrite find_modules_fold.
  set (found := omap _ _).
  destruct (register_modules_fold self found)
    as (Hin & Hold & Hwf & Hopts & Hname & Hpath).
  assert (∀ f, f ∈ found ↔
            ∃ dir dirs files,
              (dir, dirs, files)
                ∈ os_walk (repository.Repository._relocate basepath self)
              ∧ modulefile ∈ files
              ∧ f = os_path_normpath (os_path_join dir modulefile)) as Hfound.
  { intros f. unfold found. rewrite list_elem_of_omap. split.
    - intros ([[dir dirs] files] & Hwalk & Hsome). simpl in Hsome.
      case_bool_decide; [|done]. injection Hsome as <-.
      by exists dir, dirs, files.
    - intros (dir & dirs & files & Hwalk & Hfile & ->).
      exists (dir, dirs, files). split; [done|]. simpl.
      by rewrite bool_decide_eq_true_2. }
  split; [|split; [done|]; split; [done|]; split; [done|]; split; [done|];
           split; [done|]].
  - intros f. rewrite Hin. by rewrite Hfound.
  - rewrite find_modules_fold.
    set (self1 := foldl _ self found) in *.
    assert (repository.Repository._relocate basepath self1
            = repository.Repository._relocate basepath self) as ->.
    { unfold repository.Repository._relocate. by rewrite Hpath. }
    fold found.
    assert (∀ fs, Forall (λ f, f ∈ self1.(repository.Repository.modules).*1) fs →
              foldl (λ acc f, repository.Repository.register_module f acc) self1 fs
              = self1) as Hnoop.
    { induction 1 as [|f fs Hf _ IH]; [done|]. simpl.
      by rewrite register_module_present. }
    apply Hnoop. apply Forall_forall. intros f Hf. apply Hin. by right.
Qed.

Lemma find_modules_outcome_witness :
  let core' := repository.Repository.find_modules (OS := scenario.os_module)
                 "/src/core" "module.lb" scenario.core in
  core'.(repository.Repository.modules).*1
  = ["/src/core/uart/module.lb"; "/src/core/gpio/module.lb"]
  ∧ dict_wf core'.(repository.Repository.modules)
  ∧ repository.Repository.find_modules (OS := scenario.os_module)
      "/src/core" "module.lb" core' = core'.
Proof.
  destruct (@find_modules_outcome scenario.option_module scenario.os_module
              scenario.core "/src/core" "module.lb")
    as (_ & _ & Hwf & _ & _ & _ & Hagain).
  split; [reflexivity|]. split; [|exact Hagain].
  apply Hwf. apply NoDup_nil_2.
Defined.

(** ** Qualifying a key *)

Section qualification.
Context {OM : OptionModule}.

Lemma str_split_two_segments key repo option :
  str_split colon key = [repo; option] →
  str_count colon repo = 0 ∧ str_count colon option = 0.
Proof.
  intros Hs. pose proof (str_split_segments colon key) as Hseg.
  rewrite Hs in Hseg. apply Forall_cons in Hseg as [? Hseg].
  by apply Forall_cons in Hseg as [? _].
Qed.

Lemma str_split_three_segments key repo modl option :
  str_split colon key = [repo; modl; option] →
  str_count colon repo = 0 ∧ str_count colon modl = 0
  ∧ str_count colon option = 0.
Proof.
  intros Hs. pose proof (str_split_segments colon key) as Hseg.
  rewrite Hs in Hseg. apply Forall_cons in Hseg as [? Hseg].
  apply Forall_cons in Hseg as [? Hseg].
  by apply Forall_cons in Hseg as [? _].
Qed.

(** The segment the code uses in place of a given one is colon-free when
    the own name is, and qualifying it again gives it back. *)
Lemma own_segment (own : option string) (seg : string) :
  str_count colon seg = 0 →
  (seg = "" → str_count colon (pystr own) = 0) →
  let seg' := if decide (seg = "") then pystr own else seg in
  str_count colon seg' = 0
  ∧ (if decide (seg' = "") then pystr own else seg') = seg'.
Proof.
  intros Hseg Hown seg'. unfold seg'. case_decide as He.
  - split; [by apply Hown|]. by case_decide.
  - split; [done|]. by rewrite decide_False.
Qed.
End qualification.

(** X16: looking up a key and looking up its fully-qualified form give the
    same result, for every key of two segments on either resolver and every
    key of three segments on the module resolver, provided the own name
    that stands in for an empty segment holds no colon. Each empty segment
    is filled on its own, so a key may name another repository and leave
    the module empty, or the reverse. *)
Theorem lookup_of_qualified_key {OM : OptionModule} :
  (∀ (self : repository.OptionNameResolver.t) key repo option (h : heap),
     let R := self.(repository.OptionNameResolver.repository).(repository.Repository.name) in
     str_split colon key = [repo; option] →
     (repo = "" → str_count colon (pystr R) = 0) →
     repository.OptionNameResolver.__getitem__ self
       (qualified_repo_key R repo option) h
     = repository.OptionNameResolver.__getitem__ self key h)
  ∧
  (∀ (self : module.OptionNameResolver.t) key repo option (h : heap),
     let R := self.(module.OptionNameResolver.repository).(repository.Repository.name) in
     str_split colon key = [repo; option] →
     (repo = "" → str_count colon (pystr R) = 0) →
     module.OptionNameResolver.__getitem__ self
       (qualified_repo_key R repo option) h
     = module.OptionNameResolver.__getitem__ self key h)
  ∧
  (∀ (self : module.OptionNameResolver.t) key repo modl option (h : heap),
     let R := self.(module.OptionNameResolver.repository).(repository.Repository.name) in
     let M := self.(module.OptionNameResolver.module).(module.Module.name) in
     str_split colon key = [repo; modl; option] →
     (repo = "" → str_count colon (pystr R) = 0) →
     (modl = "" → str_count colon (pystr M) = 0) →
     module.OptionNameResolver.__getitem__ self
       (qualified_module_key R M repo modl option) h
     = module.OptionNameResolver.__getitem__ self key h).
Proof.
  split; [|split].
  - intros self key repo option h R Hs HR.
    destruct (str_split_two_segments _ _ _ Hs) as [Hrepo Hopt].
    destruct (own_segment R repo Hrepo HR) as [Hcount Hagain].
    unfold repository.OptionNameResolver.__getitem__ at 2. rewrite Hs.
    rewrite (qualified_repo_key_code _ _ _ _ Hs).
    unfold repository.OptionNameResolver.__getitem__, qualified_repo_key.
    rewrite str_split_repo_opt by done. fold R.
    set (repo' := if decide (repo = "") then pystr R else repo) in *.
    destruct (decide (repo' = "")) as [He|He]; [|done].
    by rewrite Hagain.
  - intros self key repo option h R Hs HR.
    destruct (str_split_two_segments _ _ _ Hs) as [Hrepo Hopt].
    destruct (own_segment R repo Hrepo HR) as [Hcount Hagain].
    unfold module.OptionNameResolver.__getitem__ at 2. rewrite Hs.
    rewrite (qualified_repo_key_code _ _ _ _ Hs).
    unfold module.OptionNameResolver.__getitem__, qualified_repo_key.
    rewrite str_split_repo_opt by done. fold R.
    set (repo' := if decide (repo = "") then pystr R else repo) in *.
    destruct (decide (repo' = "")) as [He|He]; [|done].
    by rewrite Hagain.
  - intros self key repo modl option h R M Hs HR HM.
    destruct (str_split_three_segments _ _ _ _ Hs) as (Hrepo & Hmodl & Hopt).
    destruct (own_segment R repo Hrepo HR) as [HcR HagainR].
    destruct (own_segment M modl Hmodl HM) as [HcM HagainM].
    unfold module.OptionNameResolver.__getitem__ at 2. rewrite Hs.
    unfold module.OptionNameResolver.__getitem__, qualified_module_key.
    rewrite str_split_repo_module_opt by done. fold R M.
    by rewrite HagainR, HagainM.
Qed.

Lemma lookup_of_qualified_key_witness :
  module.OptionNameResolver.__getitem__
    scenario.module_resolver "core:uart:baudrate" scenario.tables
  = module.OptionNameResolver.__getitem__
      scenario.module_resolver "core::baudrate" scenario.tables
  ∧ module.OptionNameResolver.__getitem__
      scenario.module_resolver "core:uart:baudrate" scenario.tables
    = module.OptionNameResolver.__getitem__
        scenario.module_resolver ":uart:baudrate" scenario.tables
  ∧ repository.OptionNameResolver.__getitem__
      scenario.repo_resolver "other:arch" scenario.tables
    = repository.OptionNameResolver.__getitem__
        scenario.repo_resolver "other:arch" scenario.tables.
Proof.
  destruct (@lookup_of_qualified_key scenario.option_module)
    as (Hrepo & _ & Hmod3).
  split; [|split].
  - apply (Hmod3 scenario.module_resolver "core::baudrate" "core" "" "baudrate"
             scenario.tables eq_refl); [done|reflexivity].
  - apply (Hmod3 scenario.module_resolver ":uart:baudrate" "" "uart" "baudrate"
             scenario.tables eq_refl); [reflexivity|done].
  - apply (Hrepo scenario.repo_resolver "other:arch" "other" "arch"
             scenario.tables eq_refl). done.
Defined.
